(** * cloud_monitor: the telemetry-to-alert pipeline

    A shallow embedding of [src/service.py] (class [AIService]) and of the
    monitoring half of [src/app.py] ([add_log], [background_monitor]),
    followed by the properties of the specification that were checked
    against it.

    Conventions of the embedding.
    - Percentages are Python floats compared with integer literals only;
      every finite float is a rational and those comparisons are exact, so
      a reading is a [Q]. How a number prints ([str], f-strings) is the
      parameter [py_str] of the development.
    - A dict read from JSON is a [gmap string json]; a Python list is a
      [list], with [xs.append(x)] as [xs ++ [x]] and [xs.pop(0)] as [tail xs].
    - An exception is a value of [exn]; code that may raise returns a
      [result], and [try ... except Exception] is [try_except].
    - The clock, the metric source and the external reasoning service are
      inputs of each call: what they return is not decided by this
      repository. *)

From Stdlib Require Import QArith Lqa String Ascii DecimalString.
From stdpp Require Import base strings list gmap.

(** ** Python values and primitives *)

Module Py.

(** What [json.loads] can return. *)
#[warnings="-register-all"] Inductive json : Type :=
| JNull
| JBool (b : bool)
| JNum (q : Q)
| JStr (s : string)
| JArr (l : list json)
| JObj (m : gmap string json).

(** A raised exception: its class and [str(e)]. *)
Record exn : Type := Exn { exn_class : string; exn_str : string }.

Inductive result (A : Type) : Type :=
| Ok (a : A)
| Raise (e : exn).
Arguments Ok {A} a.
Arguments Raise {A} e.

Definition bind {A B : Type} (r : result A) (k : A -> result B) : result B :=
  match r with
  | Ok a => k a
  | Raise e => Raise e
  end.

(** [try: body  except Exception as e: handler(e)] *)
Definition try_except {A : Type} (body : result A) (handler : exn -> A) : A :=
  match body with
  | Ok a => a
  | Raise e => handler e
  end.

Definition KeyError (k : string) : exn := Exn "KeyError" ("'" +:+ k +:+ "'").

(** [d[k]] on a dict whose key [k] may be missing. *)
Definition subscript {A : Type} (k : string) (o : option A) : result A :=
  match o with
  | Some a => Ok a
  | None => Raise (KeyError k)
  end.

(** [x > y] on numbers. *)
Definition gt (x y : Q) : bool := negb (Qle_bool x y).

(** [xs[-n:]] *)
Definition last_n {A : Type} (n : nat) (xs : list A) : list A :=
  drop (length xs - n) xs.

(** [if len(xs) > cap: xs.pop(0)] *)
Definition evict {A : Type} (cap : nat) (xs : list A) : list A :=
  if (cap <? length xs)%nat then tail xs else xs.

Definition upper_ascii (c : ascii) : ascii :=
  let n := nat_of_ascii c in
  if ((97 <=? n) && (n <=? 122))%nat then ascii_of_nat (n - 32) else c.

(** [s.upper()], on ASCII text. *)
Fixpoint upper (s : string) : string :=
  match s with
  | EmptyString => EmptyString
  | String c r => String (upper_ascii c) (upper r)
  end.

Definition is_colon (c : ascii) : bool := Ascii.eqb c ":".

(** [":" in s] *)
Fixpoint has_colon (s : string) : bool :=
  match s with
  | EmptyString => false
  | String c r => is_colon c || has_colon r
  end.

(** [s.split(":")[0]] *)
Fixpoint before_colon (s : string) : string :=
  match s with
  | EmptyString => EmptyString
  | String c r => if is_colon c then EmptyString else String c (before_colon r)
  end.

(** [needle in hay] *)
Fixpoint contains (needle hay : string) : bool :=
  String.prefix needle hay ||
  match hay with
  | EmptyString => false
  | String _ r => contains needle r
  end.

(** [str(n)] for a non-negative int. *)
Definition str_nat (n : nat) : string := NilZero.string_of_uint (Nat.to_uint n).

(** [x in xs] for a list of strings. *)
Definition mem (x : string) (xs : list string) : bool :=
  existsb (String.eqb x) xs.

End Py.

Import Py.

Notation "x <- r ;; k" := (bind r (fun x => k))
  (at level 100, r at next level, right associativity, only parsing).

(** ** services/ai_service.py: the enrichment gateway *)

(** One entry of [self.alert_history]. *)
Record alert_record : Type := AlertRecord {
  ar_timestamp : string;
  ar_metric : string;
  ar_value : Q;
  ar_severity : json
}.

(** The mutable part of an [AIService] object. [client] tells whether
    [self.client] holds a client object ([setup_ai_client] leaves it [None]
    without an API key or without the package). *)
Record AIService : Type := MkAIService {
  client : bool;
  alert_history : list alert_record
}.

(** [AIService()] *)
Definition AIService_init (configured : bool) : AIService :=
  {| client := configured; alert_history := [] |}.

(** The arguments substituted into one of the three prompt templates of
    [setup_prompts]; the templates have no other braces, so [format]
    does not raise. *)
Inductive request : Type :=
| AlertExplanation (alert_type metric : string) (value threshold : Q)
    (server_name server_type context : string)
| SystemAnalysis (cpu memory disk : Q) (recent_logs : string)
| LogQuery (question logs : string).

(** What [self.client.chat.completions.create(...)] followed by
    [json.loads(response.choices[0].message.content)] does on one call:
    [Failed e] when either raises (transport error, timeout, content that
    is not JSON), [Replied j] when the content parses to [j]. *)
Inductive outcome : Type :=
| Replied (content : json)
| Failed (e : exn).

Definition service : Type := request -> outcome.

Definition call (svc : service) (req : request) : result json :=
  match svc req with
  | Replied j => Ok j
  | Failed e => Raise e
  end.

(** [result.get] on whatever [json.loads] returned: only a dict has it. *)
Definition as_dict (j : json) : result (gmap string json) :=
  match j with
  | JObj d => Ok d
  | _ => Raise (Exn "AttributeError" "object has no attribute 'get'")
  end.

Definition thresholds : gmap string Q :=
  {[ "cpu" := 70%Q; "memory" := 80%Q; "disk" := 85%Q;
     "CPU" := 70%Q; "Memory" := 80%Q; "Disk" := 85%Q ]}.

(** A nested dict of a snapshot, [{'percent': ...}]. *)
Record usage : Type := Usage { percent : option Q }.

(** The dict returned by [get_system_metrics()], with the keys this code
    reads; a key may be missing. *)
Record metrics : Type := Metrics {
  cpu : option Q;
  memory : option usage;
  disk : option usage
}.

(** [metrics.get('cpu', 0)] *)
Definition get_cpu (m : metrics) : Q := default 0%Q (cpu m).

(** [metrics.get(key, {}).get('percent', 0)] *)
Definition get_percent (u : option usage) : Q :=
  default 0%Q (percent (default (Usage None) u)).

Record recommendation : Type := Recommendation {
  rec_type : string;
  priority : string;
  action : string;
  details : string
}.

Record recommendations_report : Type := Report {
  timestamp : string;
  recommendations : list recommendation;
  summary : string
}.

(** The arguments and the environment of one [enhance_alert] call. *)
Record alert_call : Type := AlertCall {
  ac_reasoning : service;
  ac_now : string;
  ac_alert_type : string;
  ac_metric : string;
  ac_value : Q;
  ac_server : option (gmap string string);
  ac_threshold : option Q
}.

(** The service fails whatever it is asked: the request raises, times out,
    or the content is not JSON. *)
Definition failing (svc : service) : Prop :=
  forall req, exists e, svc req = Failed e.

(** The service never sends a JSON object: besides the failures above, the
    content may be JSON of another kind (a list, a string, a number). *)
Definition no_object (svc : service) : Prop :=
  forall req d, svc req <> Replied (JObj d).

Section Service.

(** Python's [str()]; an f-string applies it to a float as well. *)
Variable py_str : json -> string.

Definition fmt (v : Q) : string := py_str (JNum v).

Definition severity_of (value : Q) : string :=
  if gt value 80 then "high" else if gt value 60 then "medium" else "low".

Definition default_response (metric : string) (value : Q) : gmap string json :=
  {[ "explanation" := JStr (metric +:+ " is at " +:+ fmt value +:+ "%");
     "causes" := JArr [JStr "System load"; JStr "Application demand";
                       JStr "Background processes"];
     "actions" := JArr [JStr "Check running processes"; JStr "Monitor trends";
                        JStr "Consider scaling"];
     "severity" := JStr (severity_of value);
     "related_metrics" := JArr [JStr "memory_usage"; JStr "disk_io";
                                JStr "network_traffic"] ]}.

(** The arguments of [self.prompts['alert_explanation'].format(...)]: the
    threshold defaulted from the table when the caller gave none (or 0),
    the context built from the last three history entries, and the two
    server fields. *)
Definition alert_request (self : AIService) (alert_type metric : string)
    (value : Q) (server : option (gmap string string)) (threshold : option Q)
  : request :=
  let threshold :=
    match threshold with
    | Some t => if Qeq_bool t 0 then default 70%Q (thresholds !! metric) else t
    | None => default 70%Q (thresholds !! metric)
    end in
  let context :=
    match alert_history self with
    | [] => EmptyString
    | _ => "Recent alerts: " +:+
           String.concat ", " (map ar_metric (last_n 3 (alert_history self)))
    end in
  let server_name :=
    match server with Some d => default "Unknown" (d !! "name") | None => "Unknown" end in
  let server_type :=
    match server with Some d => default "server" (d !! "type") | None => "server" end in
  AlertExplanation alert_type metric value threshold server_name server_type context.

(** The dict appended to [self.alert_history] after a reply [result]. *)
Definition history_record (now metric : string) (value : Q)
    (result : gmap string json) : alert_record :=
  {| ar_timestamp := now; ar_metric := metric; ar_value := value;
     ar_severity := default (JStr "medium") (result !! "severity") |}.

(** The body of the [try] of [enhance_alert]. *)
Definition enhance_alert_try (self : AIService) (svc : service) (now : string)
    (alert_type metric : string) (value : Q)
    (server : option (gmap string string)) (threshold : option Q)
  : result (AIService * gmap string json) :=
  j <- call svc (alert_request self alert_type metric value server threshold) ;;
  result <- as_dict j ;;
  let history :=
    evict 10 (alert_history self ++ [history_record now metric value result]) in
  Ok ({| client := client self; alert_history := history |}, result).

Definition enhance_alert (self : AIService) (svc : service) (now : string)
    (alert_type metric : string) (value : Q)
    (server : option (gmap string string)) (threshold : option Q)
  : result (AIService * gmap string json) :=
  let fallback := (self, default_response metric value) in
  if negb (client self) then Ok fallback else
  Ok (try_except
        (enhance_alert_try self svc now alert_type metric value server threshold)
        (fun _ => fallback)).

Definition simulate_analysis (m : metrics) (recent_logs : list string)
  : gmap string json :=
  let status :=
    if gt (get_cpu m) 80 || gt (get_percent (memory m)) 85
    then "warning" else "healthy" in
  {[ "status" := JStr status;
     "findings" := JArr [JStr "System monitoring active";
                         JStr "Using simulated AI analysis"];
     "risks" := JArr [JStr "No real AI insights available"];
     "optimization" := JArr [JStr "Enable AI service for detailed analysis"] ]}.

Definition simulate_query (question : string) (logs : list string)
  : gmap string json :=
  {[ "answer" := JStr "AI service is currently unavailable. Please enable OpenAI integration.";
     "evidence" := JArr [];
     "confidence" := JNum (1 # 10);   (* the literal 0.1 *)
     "follow_up" := JArr [JStr "Enable AI service for detailed log analysis?"] ]}.

Definition newline : string := String (ascii_of_nat 10) EmptyString.

Definition analyze_system_state (self : AIService) (svc : service)
    (m : metrics) (recent_logs : list string) : result json :=
  if negb (client self) then Ok (JObj (simulate_analysis m recent_logs)) else
  Ok (try_except
        (call svc (SystemAnalysis (get_cpu m) (get_percent (memory m))
                     (get_percent (disk m))
                     (String.concat newline (last_n 10 recent_logs))))
        (fun _ => JObj (simulate_analysis m recent_logs))).

Definition query_logs_natural_language (self : AIService) (svc : service)
    (question : string) (logs : list string) : result json :=
  if negb (client self) then Ok (JObj (simulate_query question logs)) else
  Ok (try_except
        (call svc (LogQuery question (String.concat newline (last_n 50 logs))))
        (fun _ => JObj (simulate_query question logs))).

Definition cpu_recommendation (v : Q) : recommendation :=
  {| rec_type := "cpu"; priority := "high"; action := "Optimize CPU usage";
     details := "Current CPU is " +:+ fmt v +:+
       "%. Consider: 1. Identify CPU-intensive processes 2. Optimize application code 3. Add CPU limits" |}.

Definition memory_recommendation (v : Q) : recommendation :=
  {| rec_type := "memory"; priority := "high"; action := "Address memory usage";
     details := "Memory at " +:+ fmt v +:+
       "%. Consider: 1. Check for memory leaks 2. Increase swap space 3. Add more RAM" |}.

Definition disk_recommendation (v : Q) : recommendation :=
  {| rec_type := "disk"; priority := "critical"; action := "Free up disk space";
     details := "Disk at " +:+ fmt v +:+
       "%. Consider: 1. Clean up temporary files 2. Archive old logs 3. Increase storage" |}.

Definition generate_recommendations (now : string) (m : metrics)
  : recommendations_report :=
  let recommendations := [] in
  let cpu := get_cpu m in
  let recommendations :=
    if gt cpu 70 then recommendations ++ [cpu_recommendation cpu]
    else recommendations in
  let mem := get_percent (memory m) in
  let recommendations :=
    if gt mem 80 then recommendations ++ [memory_recommendation mem]
    else recommendations in
  let disk := get_percent (disk m) in
  let recommendations :=
    if gt disk 85 then recommendations ++ [disk_recommendation disk]
    else recommendations in
  {| timestamp := now;
     recommendations := recommendations;
     summary := "Found " +:+ str_nat (length recommendations) +:+
                " optimization opportunities" |}.

Definition enhance_alert_call (c : alert_call) (self : AIService)
  : result (AIService * gmap string json) :=
  enhance_alert self (ac_reasoning c) (ac_now c) (ac_alert_type c)
    (ac_metric c) (ac_value c) (ac_server c) (ac_threshold c).

(** The object after a run of [enhance_alert] calls. *)
Definition enhance_alerts (calls : list alert_call) (self : AIService)
  : AIService :=
  fold_left
    (fun self c =>
       match enhance_alert_call c self with
       | Ok r => r.1
       | Raise _ => self
       end)
    calls self.

End Service.


Section Untyped.

Variable py_str : json -> string.


End Untyped.

(** ** app.py: the event log, the alert log and the sampling loop *)

(** One entry of [ai_alerts_store]; the last four fields are read from the
    dict [enhance_alert] returned and are stored as they come. *)
Record ai_entry : Type := AiEntry {
  ae_timestamp : string;
  ae_level : string;
  original_message : string;
  ai_explanation : json;
  likely_causes : json;
  recommended_actions : json;
  severity : json
}.

(** The module-level globals of [app.py] that the monitor thread writes.
    A labelled counter is the map from label value to count. *)
Record app_state : Type := AppState {
  logs_store : list string;
  ai_alerts_store : list ai_entry;
  ai_service : option AIService;
  PROM_CPU : Q;
  PROM_MEM : Q;
  PROM_DISK : Q;
  PROM_LOGS : gmap string nat;
  PROM_AI_ALERTS : gmap string nat
}.

(** The globals after import: [ai_service] is [None] when [AIService()]
    raised. *)
Definition app_init (svc : option AIService) : app_state :=
  {| logs_store := []; ai_alerts_store := []; ai_service := svc;
     PROM_CPU := 0; PROM_MEM := 0; PROM_DISK := 0;
     PROM_LOGS := ∅; PROM_AI_ALERTS := ∅ |}.

Definition set_logs_store (l : list string) (s : app_state) : app_state :=
  {| logs_store := l; ai_alerts_store := ai_alerts_store s;
     ai_service := ai_service s;
     PROM_CPU := PROM_CPU s; PROM_MEM := PROM_MEM s; PROM_DISK := PROM_DISK s;
     PROM_LOGS := PROM_LOGS s; PROM_AI_ALERTS := PROM_AI_ALERTS s |}.

Definition set_ai_alerts_store (l : list ai_entry) (s : app_state) : app_state :=
  {| logs_store := logs_store s; ai_alerts_store := l;
     ai_service := ai_service s;
     PROM_CPU := PROM_CPU s; PROM_MEM := PROM_MEM s; PROM_DISK := PROM_DISK s;
     PROM_LOGS := PROM_LOGS s; PROM_AI_ALERTS := PROM_AI_ALERTS s |}.

Definition set_ai_service (a : AIService) (s : app_state) : app_state :=
  {| logs_store := logs_store s; ai_alerts_store := ai_alerts_store s;
     ai_service := Some a;
     PROM_CPU := PROM_CPU s; PROM_MEM := PROM_MEM s; PROM_DISK := PROM_DISK s;
     PROM_LOGS := PROM_LOGS s; PROM_AI_ALERTS := PROM_AI_ALERTS s |}.

Definition set_gauges (c m d : Q) (s : app_state) : app_state :=
  {| logs_store := logs_store s; ai_alerts_store := ai_alerts_store s;
     ai_service := ai_service s;
     PROM_CPU := c; PROM_MEM := m; PROM_DISK := d;
     PROM_LOGS := PROM_LOGS s; PROM_AI_ALERTS := PROM_AI_ALERTS s |}.

(** [counter.labels(label).inc()] *)
Definition inc (label : string) (c : gmap string nat) : gmap string nat :=
  <[label := S (default 0 (c !! label))]> c.

Definition inc_PROM_LOGS (level : string) (s : app_state) : app_state :=
  {| logs_store := logs_store s; ai_alerts_store := ai_alerts_store s;
     ai_service := ai_service s;
     PROM_CPU := PROM_CPU s; PROM_MEM := PROM_MEM s; PROM_DISK := PROM_DISK s;
     PROM_LOGS := inc level (PROM_LOGS s); PROM_AI_ALERTS := PROM_AI_ALERTS s |}.

Definition inc_PROM_AI_ALERTS (label : string) (s : app_state) : app_state :=
  {| logs_store := logs_store s; ai_alerts_store := ai_alerts_store s;
     ai_service := ai_service s;
     PROM_CPU := PROM_CPU s; PROM_MEM := PROM_MEM s; PROM_DISK := PROM_DISK s;
     PROM_LOGS := PROM_LOGS s; PROM_AI_ALERTS := inc label (PROM_AI_ALERTS s) |}.

(** What the outside world answers during one [add_log]. *)
Record env : Type := Env {
  strftime : string;       (* time.strftime("%H:%M:%S") *)
  isoformat : string;      (* datetime.now().isoformat() *)
  reasoning : service      (* the external reasoning service *)
}.

(** What the outside world answers during one tick of the loop. *)
Record tick_env : Type := TickEnv {
  get_system_metrics : result metrics;
  time_time : Z;           (* int(time.time()) *)
  during : env
}.

(** [bool(metrics)] for a dict: it has a key. *)
Definition truthy (m : metrics) : bool :=
  match cpu m, memory m, disk m with
  | None, None, None => false
  | _, _, _ => true
  end.

Definition localhost : gmap string string :=
  {[ "name" := "localhost"; "type" := "monitoring_server" ]}.

Section App.

Variable py_str : json -> string.

(** [message.split(":")[0] if ":" in message else "System"] *)
Definition alert_metric (message : string) : string :=
  if has_colon message then before_colon message else "System".

(** [metrics.get('cpu') if metrics else 0]; a missing key gives [None],
    on which [enhance_alert] raises at [value > 80]. *)
Definition alert_value (m : option metrics) : result Q :=
  match m with
  | Some d =>
      if truthy d then
        match cpu d with
        | Some v => Ok v
        | None => Raise (Exn "TypeError"
                    "'>' not supported between instances of 'NoneType' and 'int'")
        end
      else Ok 0%Q
  | None => Ok 0%Q
  end.

(** The dict built at [ai_entry = {...}]. *)
Definition make_ai_entry (timestamp level message : string)
    (enhanced : gmap string json) : ai_entry :=
  {| ae_timestamp := timestamp;
     ae_level := level;
     original_message := message;
     ai_explanation := default (JStr EmptyString) (enhanced !! "explanation");
     likely_causes := default (JArr []) (enhanced !! "causes");
     recommended_actions := default (JArr []) (enhanced !! "actions");
     severity := default (JStr "medium") (enhanced !! "severity") |}.

(** The body of the [try] of [add_log]. Nothing is written before the only
    statement that can raise. *)
Definition add_log_try (e : env) (self : AIService) (timestamp : string)
    (level message : string) (m : option metrics) (s : app_state)
  : result app_state :=
  value <- alert_value m ;;
  r <- enhance_alert py_str self (reasoning e) (isoformat e)
         level (alert_metric message) value (Some localhost) None ;;
  let enhanced := r.2 in
  let s := set_ai_service r.1 s in
  let entry := make_ai_entry timestamp level message enhanced in
  let s := set_ai_alerts_store (ai_alerts_store s ++ [entry]) s in
  let s := inc_PROM_AI_ALERTS (py_str (severity entry)) s in
  let s := set_ai_alerts_store (evict 20 (ai_alerts_store s)) s in
  Ok s.

Definition add_log (e : env) (level message : string) (m : option metrics)
    (s : app_state) : app_state :=
  let timestamp := strftime e in
  let entry := timestamp +:+ " | " +:+ upper level +:+ " | " +:+ message in
  let s := set_logs_store (logs_store s ++ [entry]) s in
  let s :=
    match mem level ["warning"; "error"; "critical"], ai_service s with
    | true, Some self =>
        try_except (add_log_try e self timestamp level message m s)
                   (fun _ => s)
    | _, _ => s
    end in
  let s := set_logs_store (evict 100 (logs_store s)) s in
  inc_PROM_LOGS level s.

(** The [if]/[elif] chain of [background_monitor]: the level and the
    message handed to [add_log]. *)
Definition classify (now : Z) (cpu mem disk : Q) : string * string :=
  let f := fmt py_str in
  if gt cpu 90 then ("critical", "CPU Critical: " +:+ f cpu +:+ "%")
  else if gt cpu 70 then ("warning", "High CPU Load: " +:+ f cpu +:+ "%")
  else if gt mem 90 then ("critical", "Memory Critical: " +:+ f mem +:+ "%")
  else if gt mem 80 then ("warning", "High Memory Usage: " +:+ f mem +:+ "%")
  else if gt disk 90 then ("critical", "Disk Critical: " +:+ f disk +:+ "%")
  else if gt disk 80 then ("warning", "High Disk Usage: " +:+ f disk +:+ "%")
  else if (now mod 30 =? 0)%Z then
    ("info", "System Status: CPU " +:+ f cpu +:+ "%, RAM " +:+ f mem +:+
             "%, Disk " +:+ f disk +:+ "%")
  else
    ("info", "System Stable: CPU " +:+ f cpu +:+ "%, RAM " +:+ f mem +:+ "%").

(** The first four statements of the [try] of one iteration (after the
    sleep): the snapshot and its three readings. They come before the
    first write. *)
Definition acquire (t : tick_env) : result (metrics * (Q * Q * Q)) :=
  m <- get_system_metrics t ;;
  cpu <- subscript "cpu" (cpu m) ;;
  mu <- subscript "memory" (memory m) ;;
  mem <- subscript "percent" (percent mu) ;;
  du <- subscript "disk" (disk m) ;;
  disk <- subscript "percent" (percent du) ;;
  Ok (m, (cpu, mem, disk)).

(** The body of the [try] of one iteration. *)
Definition background_monitor_try (t : tick_env) (s : app_state)
  : result app_state :=
  r <- acquire t ;;
  let '(m, (cpu, mem, disk)) := r in
  let s := set_gauges cpu mem disk s in
  let lm := classify (time_time t) cpu mem disk in
  Ok (add_log (during t) lm.1 lm.2 (Some m) s).

(** One iteration of [while True]. *)
Definition background_monitor_tick (t : tick_env) (s : app_state) : app_state :=
  try_except (background_monitor_try t s)
    (fun ex => add_log (during t) "error" ("Monitor Error: " +:+ exn_str ex) None s).

(** The loop over the first [length ticks] iterations. *)
Definition background_monitor (ticks : list tick_env) (s : app_state) : app_state :=
  fold_left (fun s t => background_monitor_tick t s) ticks s.

(** The level and the message of the one event a tick logs. *)
Definition tick_event (t : tick_env) : string * string :=
  match acquire t with
  | Ok (_, (cpu, mem, disk)) => classify (time_time t) cpu mem disk
  | Raise ex => ("error", "Monitor Error: " +:+ exn_str ex)
  end.

Definition tick_line (t : tick_env) : string :=
  strftime (during t) +:+ " | " +:+ upper (tick_event t).1 +:+ " | " +:+
  (tick_event t).2.

End App.

(** ** Runs of [add_log] *)

(** The arguments and the environment of one [add_log] call. *)
Record log_call : Type := LogCall {
  lc_env : env;
  lc_level : string;
  lc_message : string;
  lc_metrics : option metrics
}.

(** The line [add_log] appends to [logs_store]. *)
Definition log_line (c : log_call) : string :=
  strftime (lc_env c) +:+ " | " +:+ upper (lc_level c) +:+ " | " +:+ lc_message c.

Section Runs.

Variable py_str : json -> string.

Definition add_log_call (c : log_call) (s : app_state) : app_state :=
  add_log py_str (lc_env c) (lc_level c) (lc_message c) (lc_metrics c) s.

Definition add_logs (calls : list log_call) (s : app_state) : app_state :=
  fold_left (fun s c => add_log_call c s) calls s.

(** The entry a call appends to [ai_alerts_store], if it appends one. *)
Definition alert_of (c : log_call) (s : app_state) : option ai_entry :=
  match mem (lc_level c) ["warning"; "error"; "critical"], ai_service s with
  | true, Some self =>
      match alert_value (lc_metrics c) with
      | Ok value =>
          match enhance_alert py_str self (reasoning (lc_env c))
                  (isoformat (lc_env c)) (lc_level c)
                  (alert_metric (lc_message c)) value (Some localhost) None with
          | Ok r => Some (make_ai_entry (strftime (lc_env c)) (lc_level c)
                            (lc_message c) r.2)
          | Raise _ => None
          end
      | Raise _ => None
      end
  | _, _ => None
  end.

(** Every entry appended to [ai_alerts_store] during a run, in order. *)
Fixpoint alerts_appended (calls : list log_call) (s : app_state) : list ai_entry :=
  match calls with
  | [] => []
  | c :: cs => option_list (alert_of c s) ++ alerts_appended cs (add_log_call c s)
  end.

End Runs.

(** ** services/ai_service.py: dashboard insights *)

Definition lower_ascii (c : ascii) : ascii :=
  let n := nat_of_ascii c in
  if ((65 <=? n) && (n <=? 90))%nat then ascii_of_nat (n + 32) else c.

(** [s.lower()], on ASCII text. *)
Fixpoint lower (s : string) : string :=
  match s with
  | EmptyString => EmptyString
  | String c r => String (lower_ascii c) (lower r)
  end.

(** The dict returned by [get_system_insights]. *)
Record insights_report : Type := Insights {
  insights : list string;
  generated_at : string;
  ai_available : bool
}.

(** ['ERROR' in log or 'error' in log.lower()] *)
Definition is_error_line (log : string) : bool :=
  contains "ERROR" log || contains "error" (lower log).

Definition cpu_insight : string :=
  "CPU usage is high. Consider optimizing processes.".

Definition memory_insight : string :=
  "Memory usage is elevated. Monitor for leaks.".

Definition error_insight (error_count : nat) : string :=
  "Found " +:+ str_nat error_count +:+
  " errors in recent logs. Review application health.".

Definition get_system_insights (self : AIService) (now : string)
    (m : metrics) (recent_logs : list string) : insights_report :=
  let insights := [] in
  let insights :=
    if gt (get_cpu m) 70 then insights ++ [cpu_insight] else insights in
  let insights :=
    if gt (get_percent (memory m)) 80 then insights ++ [memory_insight]
    else insights in
  let error_count := length (List.filter is_error_line recent_logs) in
  let insights :=
    if (5 <? error_count)%nat then insights ++ [error_insight error_count]
    else insights in
  {| insights := insights; generated_at := now; ai_available := client self |}.

(** ** app.py: the read routes *)

(** The [ai_insights] member of the [/api/data] body: [{}] without a
    service object, the report, or [{"error": str(e)}]. *)
Inductive insights_field : Type :=
| NoInsights
| InsightsOf (r : insights_report)
| InsightsError (error : string).

(** What a route hands to [jsonify]. *)
Inductive payload : Type :=
| ErrorBody (error : string)
| JsonBody (j : json)
| ReportBody (r : recommendations_report)
| DataBody (metrics_data : metrics) (logs : list string)
    (ai_alerts : list ai_entry) (ai_insights : insights_field)
    (ai_enabled : bool).

(** A returned response: [jsonify(...)] alone is status 200. *)
Record response : Type := Response {
  status_code : nat;
  payload_of : payload
}.

(** [bool(x)] on a parsed JSON value. *)
Definition json_truthy (j : json) : bool :=
  match j with
  | JNull => false
  | JBool b => b
  | JNum q => negb (Qeq_bool q 0)
  | JStr s => negb (String.eqb s EmptyString)
  | JArr l => match l with [] => false | _ => true end
  | JObj d => negb (bool_decide (d = ∅))
  end.

Definition is_str (k : string) (j : json) : bool :=
  match j with
  | JStr s => String.eqb k s
  | _ => false
  end.

(** [k in data] for a string [k]: key of a dict, element of a list,
    substring of a string; a number, a boolean or [None] is not iterable. *)
Definition json_in (k : string) (data : json) : result bool :=
  match data with
  | JObj d => Ok (bool_decide (is_Some (d !! k)))
  | JArr l => Ok (existsb (is_str k) l)
  | JStr s => Ok (contains k s)
  | _ => Raise (Exn "TypeError" "argument is not iterable")
  end.

(** [data[k]] for a string [k]: only a dict can be indexed by a string. *)
Definition json_subscript (k : string) (data : json) : result json :=
  match data with
  | JObj d => subscript k (d !! k)
  | _ => Raise (Exn "TypeError" "indices must be integers")
  end.

Definition unavailable : response :=
  Response 503 (ErrorBody "AI service unavailable").

Section Routes.

Variable py_str : json -> string.

(** What [str.format] substitutes for a value. *)
Definition format_value (v : json) : string :=
  match v with
  | JStr s => s
  | _ => py_str v
  end.

(** [/api/data]. The metric source is read outside any [try]. *)
Definition api_data (sample : result metrics) (now : string) (s : app_state)
  : result response :=
  metrics_data <- sample ;;
  let ai_insights :=
    match ai_service s with
    | Some self =>
        try_except
          (Ok (InsightsOf (get_system_insights self now metrics_data
                             (last_n 10 (logs_store s)))))
          (fun e => InsightsError (exn_str e))
    | None => NoInsights
    end in
  Ok (Response 200
        (DataBody metrics_data (last_n 20 (logs_store s))
           (last_n 10 (ai_alerts_store s)) ai_insights
           (match ai_service s with Some _ => true | None => false end))).

(** [/api/ai/analyze] *)
Definition ai_analyze (sample : result metrics) (svc : service)
    (s : app_state) : response :=
  match ai_service s with
  | None => unavailable
  | Some self =>
      try_except
        (metrics_data <- sample ;;
         let recent_logs := last_n 50 (logs_store s) in
         analysis <- analyze_system_state self svc metrics_data recent_logs ;;
         Ok (Response 200 (JsonBody analysis)))
        (fun e => Response 500 (ErrorBody (exn_str e)))
  end.

(** [/api/ai/query], on the parsed request body [data]. *)
Definition ai_query (data : json) (svc : service) (s : app_state)
  : result response :=
  match ai_service s with
  | None => Ok unavailable
  | Some self =>
      missing <-
        (if negb (json_truthy data) then Ok true
         else present <- json_in "question" data ;; Ok (negb present)) ;;
      if missing : bool then Ok (Response 400 (ErrorBody "Question required"))
      else
        Ok (try_except
              (question <- json_subscript "question" data ;;
               r <- query_logs_natural_language self svc
                      (format_value question) (last_n 100 (logs_store s)) ;;
               Ok (Response 200 (JsonBody r)))
              (fun e => Response 500 (ErrorBody (exn_str e))))
  end.

(** [/api/ai/recommendations] *)
Definition ai_recommendations (sample : result metrics) (now : string)
    (s : app_state) : response :=
  match ai_service s with
  | None => unavailable
  | Some self =>
      try_except
        (metrics_data <- sample ;;
         Ok (Response 200
               (ReportBody (generate_recommendations py_str now metrics_data))))
        (fun e => Response 500 (ErrorBody (exn_str e)))
  end.

End Routes.

(** ** A concrete [str] for the examples *)

(** Python's [str] on [None], booleans, strings and whole numbers, which is
    all the examples below print; containers are not rendered. *)
Definition str_simple (j : json) : string :=
  match j with
  | JNull => "None"
  | JBool true => "True"
  | JBool false => "False"
  | JNum q => NilZero.string_of_int (Z.to_int (Qnum q / Z.pos (Qden q)))
  | JStr s => s
  | JArr _ => "[...]"
  | JObj _ => "{...}"
  end.

(** A service whose every request times out. *)
Definition timed_out : service :=
  fun _ => Failed (Exn "APITimeoutError" "Request timed out.").

(** A service that always sends the same content. *)
Definition replying (content : json) : service := fun _ => Replied content.

(** A snapshot with the three readings present. *)
Definition snapshot (c m d : Q) : metrics :=
  {| cpu := Some c; memory := Some (Usage (Some m)); disk := Some (Usage (Some d)) |}.

Definition noon (svc : service) : env :=
  {| strftime := "12:00:00"; isoformat := "2024-01-01T12:00:00"; reasoning := svc |}.

(** A tick whose metric source raises. *)
Definition sensor_offline : tick_env :=
  {| get_system_metrics := Raise (Exn "RuntimeError" "sensor offline");
     time_time := 7; during := noon timed_out |}.

(** A tick with memory at 95 percent and the CPU idle. *)
Definition memory_spike : tick_env :=
  {| get_system_metrics := Ok (snapshot 10 95 50);
     time_time := 7; during := noon timed_out |}.

(** A reply whose severity is none of the three tiers. *)
Definition odd_reply : gmap string json :=
  {[ "explanation" := JStr "load"; "severity" := JStr "catastrophic" ]}.

Definition cpu_warning (svc : service) : log_call :=
  {| lc_env := noon svc; lc_level := "warning";
     lc_message := "High CPU Load: 75%";
     lc_metrics := Some (snapshot 75 50 50) |}.

Definition cpu_alert (svc : service) : alert_call :=
  {| ac_reasoning := svc; ac_now := "2024-01-01T12:00:00";
     ac_alert_type := "warning"; ac_metric := "CPU"; ac_value := 85;
     ac_server := None; ac_threshold := None |}.

(** ** Properties *)

Section ListFacts.

Context {A : Type}.
Implicit Types (xs : list A) (x : A).

Lemma length_last_n n xs : length (last_n n xs) <= n.
Proof. unfold last_n. rewrite length_drop. lia. Qed.

Lemma last_n_all n xs : length xs <= n -> last_n n xs = xs.
Proof.
  intros H. unfold last_n. replace (length xs - n) with 0 by lia. done.
Qed.

Lemma evict_last_n cap xs x :
  length xs <= cap -> evict cap (xs ++ [x]) = last_n cap (xs ++ [x]).
Proof.
  intros H. unfold evict, last_n. rewrite length_app. simpl.
  destruct (Nat.ltb_spec cap (length xs + 1)) as [Hlt | Hge].
  - replace (length xs + 1 - cap) with 1 by lia. done.
  - replace (length xs + 1 - cap) with 0 by lia. done.
Qed.

Lemma last_n_snoc cap xs x :
  last_n cap (last_n cap xs ++ [x]) = last_n cap (xs ++ [x]).
Proof.
  unfold last_n. rewrite !length_app, length_drop. simpl.
  destruct (Nat.le_gt_cases (length xs) cap) as [Hle | Hgt].
  - replace (length xs - cap) with 0 by lia. simpl.
    by replace (length xs - 0) with (length xs) by lia.
  - replace (length xs - (length xs - cap) + 1 - cap) with 1 by lia.
    destruct cap as [| cap].
    + rewrite !drop_ge; [done | rewrite length_app; simpl; lia |].
      rewrite length_app, length_drop. simpl. lia.
    + rewrite (drop_app_le xs) by lia.
      rewrite drop_app_le by (rewrite length_drop; lia).
      rewrite drop_drop. f_equal. f_equal. lia.
Qed.

Lemma evict_full cap xs x :
  0 < cap -> length xs <= cap ->
  evict cap (xs ++ [x]) =
  (if length xs <? cap then xs else tail xs) ++ [x].
Proof.
  intros Hcap H. unfold evict. rewrite length_app. simpl.
  destruct (Nat.ltb_spec cap (length xs + 1)) as [Hlt | Hge];
    destruct (Nat.ltb_spec (length xs) cap) as [Hlt' | Hge']; try lia; try done.
  destruct xs; simpl in *; [lia | done].
Qed.

End ListFacts.

Lemma gt_true x y : gt x y = true <-> (y < x)%Q.
Proof.
  unfold gt. rewrite negb_true_iff. split.
  - intros H. apply Qnot_le_lt. intros Hle.
    apply Qle_bool_iff in Hle. congruence.
  - intros H. destruct (Qle_bool x y) eqn:E; [| done].
    apply Qle_bool_iff in E. lra.
Qed.

Lemma gt_false x y : gt x y = false <-> (x <= y)%Q.
Proof.
  unfold gt. rewrite negb_false_iff. apply Qle_bool_iff.
Qed.

(** Case analysis on a Python comparison [x > y], with the outcome as an
    inequality over [Q]. *)
Ltac case_gt x y :=
  let E := fresh "E" in
  destruct (gt x y) eqn:E; [apply gt_true in E | apply gt_false in E].

(** One branch of a chain of rules: the rules whose guards contradict the
    branch are vacuous, the other ones hold by computation. *)
Ltac rule_fires :=
  repeat split; intros; try (exfalso; lra); reflexivity.

Section Logs.

Variable py_str : json -> string.

Lemma enhance_alert_returns self svc now alert_type metric value server threshold :
  exists r, enhance_alert py_str self svc now alert_type metric value
              server threshold = Ok r.
Proof.
  unfold enhance_alert. destruct (negb (client self)); eauto.
Qed.

Lemma add_log_logs_store e level message m s :
  logs_store (add_log py_str e level message m s) =
  evict 100 (logs_store s ++
    [strftime e +:+ " | " +:+ upper level +:+ " | " +:+ message]).
Proof.
  unfold add_log.
  destruct (mem level _); simpl; [| done].
  destruct (ai_service s) as [self |]; simpl; [| done].
  unfold add_log_try.
  destruct (alert_value m) as [value | ex]; simpl; [| done].
  destruct (enhance_alert_returns self (reasoning e) (isoformat e) level
              (alert_metric message) value (Some localhost) None) as [r ->].
  done.
Qed.

Lemma add_log_ai_alerts_store c s :
  ai_alerts_store (add_log_call py_str c s) =
  match alert_of py_str c s with
  | Some entry => evict 20 (ai_alerts_store s ++ [entry])
  | None => ai_alerts_store s
  end.
Proof.
  unfold add_log_call, add_log, alert_of.
  destruct (mem (lc_level c) _); simpl; [| done].
  destruct (ai_service s) as [self |]; simpl; [| done].
  unfold add_log_try.
  destruct (alert_value (lc_metrics c)) as [value | ex]; simpl; [| done].
  destruct (enhance_alert_returns self (reasoning (lc_env c))
              (isoformat (lc_env c)) (lc_level c)
              (alert_metric (lc_message c)) value (Some localhost) None)
    as [r ->].
  done.
Qed.

Lemma add_logs_snoc calls c s :
  add_logs py_str (calls ++ [c]) s =
  add_log_call py_str c (add_logs py_str calls s).
Proof. unfold add_logs. by rewrite fold_left_app. Qed.

Lemma alerts_appended_snoc calls c s :
  alerts_appended py_str (calls ++ [c]) s =
  alerts_appended py_str calls s ++
  option_list (alert_of py_str c (add_logs py_str calls s)).
Proof.
  revert s. induction calls as [| c' calls IH]; intros s; simpl.
  - by rewrite app_nil_r.
  - rewrite IH. by rewrite app_assoc.
Qed.

Lemma logs_store_last_n svc calls :
  logs_store (add_logs py_str calls (app_init svc)) =
  last_n 100 (map log_line calls).
Proof.
  induction calls as [| c calls IH] using rev_ind; [done |].
  rewrite add_logs_snoc. unfold add_log_call. rewrite add_log_logs_store.
  rewrite IH, map_app. simpl. fold (log_line c).
  rewrite evict_last_n by apply length_last_n.
  apply last_n_snoc.
Qed.

Lemma ai_alerts_store_last_n svc calls :
  ai_alerts_store (add_logs py_str calls (app_init svc)) =
  last_n 20 (alerts_appended py_str calls (app_init svc)).
Proof.
  induction calls as [| c calls IH] using rev_ind; [done |].
  rewrite add_logs_snoc, add_log_ai_alerts_store, alerts_appended_snoc.
  destruct (alert_of py_str c _) as [entry |]; simpl.
  - rewrite IH. rewrite evict_last_n by apply length_last_n.
    apply last_n_snoc.
  - by rewrite app_nil_r.
Qed.

(** C2. From the empty logs of a fresh process, after any run of [add_log]
    calls the event log is the last 100 lines appended and the alert log
    the last 20 entries appended, each in insertion order, so neither
    exceeds its capacity; one more call appends its entry at the end and
    drops exactly the head of a log that was full, nothing otherwise. *)
Theorem bounded_logs_keep_last (svc : option AIService)
    (calls : list log_call) (c : log_call) :
  let s := add_logs py_str calls (app_init svc) in
  (length (logs_store s) <= 100 /\ length (ai_alerts_store s) <= 20) /\
  (logs_store s = last_n 100 (map log_line calls) /\
   ai_alerts_store s = last_n 20 (alerts_appended py_str calls (app_init svc))) /\
  logs_store (add_log_call py_str c s) =
    (if length (logs_store s) <? 100 then logs_store s
     else tail (logs_store s)) ++ [log_line c] /\
  ai_alerts_store (add_log_call py_str c s) =
    match alert_of py_str c s with
    | Some entry =>
        (if length (ai_alerts_store s) <? 20 then ai_alerts_store s
         else tail (ai_alerts_store s)) ++ [entry]
    | None => ai_alerts_store s
    end.
Proof.
  intros s.
  assert (Hlogs : length (logs_store s) <= 100).
  { subst s. rewrite logs_store_last_n. apply length_last_n. }
  assert (Halerts : length (ai_alerts_store s) <= 20).
  { subst s. rewrite ai_alerts_store_last_n. apply length_last_n. }
  split; [done |]. split.
  { split; [apply logs_store_last_n | apply ai_alerts_store_last_n]. }
  split.
  - unfold add_log_call. rewrite add_log_logs_store.
    fold (log_line c). apply evict_full; [lia | done].
  - rewrite add_log_ai_alerts_store.
    destruct (alert_of py_str c s); [| done].
    apply evict_full; [lia | done].
Qed.

End Logs.

Section Classifier.

Variable py_str : json -> string.

Lemma contains_prefix needle hay :
  String.prefix needle hay = true -> contains needle hay = true.
Proof. intros H. destruct hay; simpl in *; rewrite H; done. Qed.

(** C1, as the code has it. The chain is tried in the order CPU critical,
    CPU warning, memory critical, memory warning, disk critical, disk
    warning, informational, and the first rule that fires decides alone;
    every threshold is strict: cpu > 90 gives critical with a message
    containing "CPU Critical", 70 < cpu <= 90 gives warning, memory and
    disk follow with > 90 and > 80 once the earlier rules did not fire,
    and cpu <= 70 with memory <= 80 and disk <= 80 gives info. *)
Theorem classify_first_match (now : Z) (cpu mem disk : Q) :
  let lm := classify py_str now cpu mem disk in
  ((90 < cpu)%Q ->
     lm.1 = "critical" /\ contains "CPU Critical" lm.2 = true) /\
  ((70 < cpu)%Q -> (cpu <= 90)%Q ->
     lm.1 = "warning" /\ contains "High CPU Load" lm.2 = true) /\
  ((cpu <= 70)%Q -> (90 < mem)%Q ->
     lm.1 = "critical" /\ contains "Memory Critical" lm.2 = true) /\
  ((cpu <= 70)%Q -> (80 < mem)%Q -> (mem <= 90)%Q ->
     lm.1 = "warning" /\ contains "High Memory Usage" lm.2 = true) /\
  ((cpu <= 70)%Q -> (mem <= 80)%Q -> (90 < disk)%Q ->
     lm.1 = "critical" /\ contains "Disk Critical" lm.2 = true) /\
  ((cpu <= 70)%Q -> (mem <= 80)%Q -> (80 < disk)%Q -> (disk <= 90)%Q ->
     lm.1 = "warning" /\ contains "High Disk Usage" lm.2 = true) /\
  ((cpu <= 70)%Q -> (mem <= 80)%Q -> (disk <= 80)%Q ->
     lm.1 = "info" /\ contains "System St" lm.2 = true).
Proof.
  intros lm. subst lm. unfold classify.
  case_gt cpu 90%Q; [rule_fires |].
  case_gt cpu 70%Q; [rule_fires |].
  case_gt mem 90%Q; [rule_fires |].
  case_gt mem 80%Q; [rule_fires |].
  case_gt disk 90%Q; [rule_fires |].
  case_gt disk 80%Q; [rule_fires |].
  destruct (now `mod` 30 =? 0)%Z; rule_fires.
Qed.

End Classifier.

(** At exactly 95 percent the first rule fires. *)
Lemma classify_first_match_witness :
  (90 < 95)%Q /\
  (classify str_simple 0 95 99 99).1 = "critical" /\
  contains "CPU Critical" (classify str_simple 0 95 99 99).2 = true.
Proof.
  split; [reflexivity |].
  apply (proj1 (classify_first_match str_simple 0 95 99 99)). reflexivity.
Defined.

(** C1 as stated fails on both boundaries: at cpu = 90 the event is a
    warning, not critical, and at cpu = 70 with memory and disk low it is
    informational, not a warning. *)
Lemma classify_cpu_90_not_critical :
  classify str_simple 0 90 0 0 = ("warning", "High CPU Load: 90%") /\
  classify str_simple 0 70 0 0 =
    ("info", "System Status: CPU 70%, RAM 0%, Disk 0%") /\
  ~ (forall now cpu mem disk, (90 <= cpu)%Q ->
       (classify str_simple now cpu mem disk).1 = "critical").
Proof.
  split; [reflexivity |]. split; [reflexivity |].
  intros H. specialize (H 0%Z 90%Q 0%Q 0%Q).
  discriminate H. apply Qle_refl.
Qed.

Section Gateway.

Variable py_str : json -> string.

Lemma length_evict_snoc {A : Type} cap (xs : list A) x :
  length xs <= cap -> length (evict cap (xs ++ [x])) <= cap.
Proof. intros H. rewrite evict_last_n by done. apply length_last_n. Qed.

Lemma enhance_alert_unconfigured self svc now alert_type metric value server threshold :
  client self = false ->
  enhance_alert py_str self svc now alert_type metric value server threshold =
  Ok (self, default_response py_str metric value).
Proof. intros H. unfold enhance_alert. by rewrite H. Qed.

Lemma enhance_alert_success self svc now alert_type metric value server threshold d :
  client self = true ->
  svc (alert_request self alert_type metric value server threshold) =
    Replied (JObj d) ->
  enhance_alert py_str self svc now alert_type metric value server threshold =
  Ok ({| client := true;
         alert_history :=
           evict 10 (alert_history self ++ [history_record now metric value d]) |},
      d).
Proof.
  intros Hc Hr. unfold enhance_alert, enhance_alert_try, call.
  rewrite Hc, Hr. done.
Qed.

Lemma enhance_alert_no_object self svc now alert_type metric value server threshold :
  (forall d, svc (alert_request self alert_type metric value server threshold)
             <> Replied (JObj d)) ->
  enhance_alert py_str self svc now alert_type metric value server threshold =
  Ok (self, default_response py_str metric value).
Proof.
  intros Hr. unfold enhance_alert, enhance_alert_try, call.
  destruct (negb (client self)); [done |].
  destruct (svc _) as [j | e]; [| done].
  destruct j; try done. by destruct (Hr m).
Qed.


(** One call either falls back and leaves the object alone, or appends one
    record. *)
Lemma enhance_alert_cases self svc now alert_type metric value server threshold :
  enhance_alert py_str self svc now alert_type metric value server threshold =
    Ok (self, default_response py_str metric value) \/
  exists d,
    enhance_alert py_str self svc now alert_type metric value server threshold =
    Ok ({| client := true;
           alert_history :=
             evict 10 (alert_history self ++ [history_record now metric value d]) |},
        d).
Proof.
  destruct (client self) eqn:Hc;
    [| left; by apply enhance_alert_unconfigured].
  destruct (svc (alert_request self alert_type metric value server threshold))
    as [j | e] eqn:Hr.
  - destruct j; try (left; apply enhance_alert_no_object; congruence).
    right. exists m. by apply enhance_alert_success.
  - left. apply enhance_alert_no_object. congruence.
Qed.

Lemma enhance_alerts_snoc calls c self :
  enhance_alerts py_str (calls ++ [c]) self =
  match enhance_alert_call py_str c (enhance_alerts py_str calls self) with
  | Ok r => r.1
  | Raise _ => enhance_alerts py_str calls self
  end.
Proof. unfold enhance_alerts. by rewrite fold_left_app. Qed.

Lemma enhance_alerts_length calls self :
  length (alert_history self) <= 10 ->
  length (alert_history (enhance_alerts py_str calls self)) <= 10.
Proof.
  intros H. induction calls as [| c calls IH] using rev_ind; [done |].
  rewrite enhance_alerts_snoc. unfold enhance_alert_call.
  destruct (enhance_alert_cases (enhance_alerts py_str calls self)
              (ac_reasoning c) (ac_now c) (ac_alert_type c) (ac_metric c)
              (ac_value c) (ac_server c) (ac_threshold c)) as [-> | [d ->]];
    simpl; [done |].
  by apply length_evict_snoc.
Qed.

Lemma enhance_alerts_fallback calls self :
  client self = false \/ Forall (fun c => no_object (ac_reasoning c)) calls ->
  enhance_alerts py_str calls self = self.
Proof.
  intros H. induction calls as [| c calls IH] using rev_ind; [done |].
  rewrite enhance_alerts_snoc. rewrite IH.
  - unfold enhance_alert_call. destruct H as [Hc | Hall].
    + by rewrite enhance_alert_unconfigured.
    + apply Forall_app in Hall as [_ Hc]. rewrite Forall_singleton in Hc.
      rewrite enhance_alert_no_object; [done |]. intros d. apply Hc.
  - destruct H as [Hc | Hall]; [by left | right].
    by apply Forall_app in Hall as [Hall _].
Qed.

End Gateway.

Section GatewayContract.

Variable py_str : json -> string.

Lemma severity_of_high value : (80 < value)%Q -> severity_of value = "high".
Proof. intros H. unfold severity_of. apply gt_true in H. by rewrite H. Qed.

Lemma severity_of_medium value :
  (60 < value)%Q -> (value <= 80)%Q -> severity_of value = "medium".
Proof.
  intros H1 H2. unfold severity_of.
  apply gt_true in H1. apply gt_false in H2. by rewrite H2, H1.
Qed.

Lemma severity_of_low value : (value <= 60)%Q -> severity_of value = "low".
Proof.
  intros H. unfold severity_of.
  assert (H80 : gt value 80 = false) by (apply gt_false; lra).
  apply gt_false in H. by rewrite H80, H.
Qed.


(** C4. With no client configured, [enhance_alert] returns the default
    response and the object unchanged, whatever the service, the clock and
    the history are: an explanation restating metric and value, the fixed
    causes, actions and related metrics, and a severity that depends on the
    value alone, "high" above 80, "medium" above 60 and up to 80, "low" up
    to 60; so 85, 65 and 30 give "high", "medium" and "low". *)
Theorem fallback_deterministic (history : list alert_record) (svc : service)
    (now alert_type metric : string) (value : Q)
    (server : option (gmap string string)) (threshold : option Q) :
  let self := {| client := false; alert_history := history |} in
  let response := default_response py_str metric value in
  enhance_alert py_str self svc now alert_type metric value server threshold
    = Ok (self, response) /\
  (response !! "explanation"
     = Some (JStr (metric +:+ " is at " +:+ py_str (JNum value) +:+ "%")) /\
   response !! "causes"
     = Some (JArr [JStr "System load"; JStr "Application demand";
                   JStr "Background processes"]) /\
   response !! "actions"
     = Some (JArr [JStr "Check running processes"; JStr "Monitor trends";
                   JStr "Consider scaling"]) /\
   response !! "related_metrics"
     = Some (JArr [JStr "memory_usage"; JStr "disk_io"; JStr "network_traffic"]) /\
   response !! "severity" = Some (JStr (severity_of value))) /\
  (((80 < value)%Q -> severity_of value = "high") /\
   ((60 < value)%Q -> (value <= 80)%Q -> severity_of value = "medium") /\
   ((value <= 60)%Q -> severity_of value = "low")) /\
  (severity_of 85 = "high" /\ severity_of 65 = "medium" /\
   severity_of 30 = "low").
Proof.
  intros self response. split; [by apply enhance_alert_unconfigured |].
  split.
  { subst response. unfold default_response. repeat split; by simplify_map_eq. }
  split; [| done].
  split; [apply severity_of_high |].
  split; [apply severity_of_medium | apply severity_of_low].
Qed.

(** C5. Along any run of [enhance_alert] calls on a fresh object the
    history holds at most 10 records. A call appends a record exactly when
    a client is configured and the service replies with a JSON object: the
    record goes to the end and, when 10 were held, the oldest one alone is
    dropped. In every other case (no client, a failure, a reply that is not
    an object) the call returns the default response and the object is
    unchanged, and so is it after any number of such calls. *)
Theorem history_appended_on_success_only (configured : bool)
    (calls : list alert_call) (c : alert_call) (fallbacks : list alert_call) :
  let self := enhance_alerts py_str calls (AIService_init configured) in
  let reply :=
    ac_reasoning c (alert_request self (ac_alert_type c) (ac_metric c)
                      (ac_value c) (ac_server c) (ac_threshold c)) in
  length (alert_history self) <= 10 /\
  (forall d, client self = true -> reply = Replied (JObj d) ->
     enhance_alert_call py_str c self =
     Ok ({| client := true;
            alert_history :=
              (if length (alert_history self) <? 10 then alert_history self
               else tail (alert_history self)) ++
              [history_record (ac_now c) (ac_metric c) (ac_value c) d] |}, d)) /\
  (client self = false \/ (forall d, reply <> Replied (JObj d)) ->
     enhance_alert_call py_str c self =
     Ok (self, default_response py_str (ac_metric c) (ac_value c))) /\
  (client self = false \/
   Forall (fun c => no_object (ac_reasoning c)) fallbacks ->
     enhance_alerts py_str fallbacks self = self).
Proof.
  intros self reply.
  assert (Hlen : length (alert_history self) <= 10).
  { subst self. apply enhance_alerts_length. simpl. lia. }
  split; [done |]. split; [| split].
  - intros d Hc Hr. unfold enhance_alert_call.
    rewrite (enhance_alert_success _ _ _ _ _ _ _ _ _ d Hc Hr).
    by rewrite evict_full by (lia || done).
  - intros [Hc | Hr]; unfold enhance_alert_call.
    + by apply enhance_alert_unconfigured.
    + by apply enhance_alert_no_object.
  - apply enhance_alerts_fallback.
Qed.

End GatewayContract.

Section Alerts.

Variable py_str : json -> string.

(** What an enriching [add_log] writes besides the log line. *)
Lemma add_log_enriched e level message m s self value self' d :
  mem level ["warning"; "error"; "critical"] = true ->
  ai_service s = Some self ->
  alert_value m = Ok value ->
  enhance_alert py_str self (reasoning e) (isoformat e) level
    (alert_metric message) value (Some localhost) None = Ok (self', d) ->
  let entry := make_ai_entry (strftime e) level message d in
  let s' := add_log py_str e level message m s in
  ai_alerts_store s' = evict 20 (ai_alerts_store s ++ [entry]) /\
  PROM_AI_ALERTS s' = inc (py_str (severity entry)) (PROM_AI_ALERTS s) /\
  ai_service s' = Some self'.
Proof.
  intros Hl Hs Hv He entry s'. subst entry s'.
  unfold add_log. rewrite Hl. cbn [ai_service set_logs_store]. rewrite Hs.
  unfold add_log_try. rewrite Hv. cbn [bind]. rewrite He. done.
Qed.

Lemma severity_of_tier value :
  severity_of value = "low" \/ severity_of value = "medium" \/
  severity_of value = "high".
Proof.
  unfold severity_of. destruct (gt value 80); [by right; right |].
  destruct (gt value 60); [by right; left | by left].
Qed.

Lemma default_response_severity metric value :
  default_response py_str metric value !! "severity" =
  Some (JStr (severity_of value)).
Proof. unfold default_response. by simplify_map_eq. Qed.

(** C6, as the code has it. The severity of an alert record is never
    validated: when a client is configured and the service replies with a
    JSON object, the record carries the reply's "severity" member exactly
    as sent ("medium" only when the member is missing), and that value is
    stored in the alert log and used as the counter label; otherwise the
    fallback supplies one of "low", "medium", "high". *)
Theorem severity_stored_as_replied (c : log_call) (s : app_state)
    (entry : ai_entry) :
  alert_of py_str c s = Some entry ->
  exists self value,
    ai_service s = Some self /\
    alert_value (lc_metrics c) = Ok value /\
    severity entry =
      match client self,
            reasoning (lc_env c)
              (alert_request self (lc_level c) (alert_metric (lc_message c))
                 value (Some localhost) None) with
      | true, Replied (JObj d) => default (JStr "medium") (d !! "severity")
      | _, _ => JStr (severity_of value)
      end /\
    (severity_of value = "low" \/ severity_of value = "medium" \/
     severity_of value = "high") /\
    ai_alerts_store (add_log_call py_str c s) =
      evict 20 (ai_alerts_store s ++ [entry]) /\
    PROM_AI_ALERTS (add_log_call py_str c s) =
      inc (py_str (severity entry)) (PROM_AI_ALERTS s).
Proof.
  unfold alert_of. intros H.
  destruct (mem (lc_level c) _) eqn:Hl; [| done].
  destruct (ai_service s) as [self |] eqn:Hs; [| done].
  destruct (alert_value (lc_metrics c)) as [value | ex] eqn:Hv; [| done].
  destruct (enhance_alert py_str self _ _ _ _ value _ _) as [[self' d] | ex]
    eqn:He; [| done].
  simpl in H. injection H as <-.
  exists self, value. split; [done |]. split; [done |].
  destruct (add_log_enriched _ _ _ _ _ _ _ _ _ Hl Hs Hv He) as (Ha & Hp & _).
  split; [| split; [apply severity_of_tier | split; [exact Ha | exact Hp]]].
  simpl. clear Ha Hp.
  destruct (client self) eqn:Hc.
  - destruct (reasoning (lc_env c) _) as [j | ex] eqn:Hr.
    + destruct j as [| b | q | str | l | reply];
        try (rewrite enhance_alert_no_object in He by congruence;
             injection He as <- <-; by rewrite default_response_severity).
      rewrite (enhance_alert_success _ _ _ _ _ _ _ _ _ reply Hc Hr) in He.
      by injection He as <- <-.
    + rewrite enhance_alert_no_object in He by congruence.
      injection He as <- <-. by rewrite default_response_severity.
  - rewrite enhance_alert_unconfigured in He by done.
    injection He as <- <-. by rewrite default_response_severity.
Qed.

End Alerts.

Section Loop.

Variable py_str : json -> string.

Lemma acquire_readings t m c me d :
  acquire t = Ok (m, (c, me, d)) ->
  get_system_metrics t = Ok m /\ cpu m = Some c /\
  memory m = Some (Usage (Some me)) /\ disk m = Some (Usage (Some d)).
Proof.
  unfold acquire. destruct (get_system_metrics t) as [m' | ex]; [| done].
  simpl. destruct m' as [[c' |] [[[me' |]] |] [[[d' |]] |]]; simpl; try done.
  intros [= <- <- <- <-]. done.
Qed.

Lemma tick_acquired t s m c me d :
  acquire t = Ok (m, (c, me, d)) ->
  background_monitor_tick py_str t s =
  add_log py_str (during t) (classify py_str (time_time t) c me d).1
    (classify py_str (time_time t) c me d).2 (Some m) (set_gauges c me d s).
Proof.
  intros H. unfold background_monitor_tick, background_monitor_try.
  by rewrite H.
Qed.

Lemma tick_failed t s ex :
  acquire t = Raise ex ->
  background_monitor_tick py_str t s =
  add_log py_str (during t) "error" ("Monitor Error: " +:+ exn_str ex) None s.
Proof.
  intros H. unfold background_monitor_tick, background_monitor_try.
  by rewrite H.
Qed.

(** C10. In a tick that logs a warning or critical event, the value given
    to [enhance_alert] is the snapshot's CPU reading, whichever metric
    crossed its threshold, and it is 0 when [add_log] gets no snapshot (the
    error event of a failed tick). So without a client the record of a
    memory or disk alert (CPU at most 70) restates the CPU reading and has
    the severity of the CPU reading, which is never "high". *)
Theorem enrichment_value_is_cpu (t : tick_env) (s : app_state)
    (self : AIService) (m : metrics) (c me d : Q) :
  acquire t = Ok (m, (c, me, d)) ->
  ai_service s = Some self ->
  let lm := classify py_str (time_time t) c me d in
  mem lm.1 ["warning"; "error"; "critical"] = true ->
  (alert_value (Some m) = Ok c /\ alert_value None = Ok 0%Q) /\
  (forall self' r,
     enhance_alert py_str self (reasoning (during t)) (isoformat (during t))
       lm.1 (alert_metric lm.2) c (Some localhost) None = Ok (self', r) ->
     ai_alerts_store (background_monitor_tick py_str t s) =
     evict 20 (ai_alerts_store s ++
                 [make_ai_entry (strftime (during t)) lm.1 lm.2 r])) /\
  (client self = false -> (c <= 70)%Q ->
   exists entry,
     ai_alerts_store (background_monitor_tick py_str t s) =
       evict 20 (ai_alerts_store s ++ [entry]) /\
     severity entry = JStr (severity_of c) /\
     severity_of c <> "high" /\
     ai_explanation entry =
       JStr (alert_metric lm.2 +:+ " is at " +:+ py_str (JNum c) +:+ "%")).
Proof.
  intros Ha Hs lm Hl.
  destruct (acquire_readings _ _ _ _ _ Ha) as (_ & Hc & _ & _).
  assert (Hv : alert_value (Some m) = Ok c).
  { unfold alert_value, truthy. by rewrite Hc. }
  split; [done |].
  assert (Hcall : forall self' r,
     enhance_alert py_str self (reasoning (during t)) (isoformat (during t))
       lm.1 (alert_metric lm.2) c (Some localhost) None = Ok (self', r) ->
     ai_alerts_store (background_monitor_tick py_str t s) =
     evict 20 (ai_alerts_store s ++
                 [make_ai_entry (strftime (during t)) lm.1 lm.2 r])).
  { intros self' r He. rewrite (tick_acquired _ _ _ _ _ _ Ha).
    destruct (add_log_enriched py_str (during t) lm.1 lm.2 (Some m)
                (set_gauges c me d s) self c self' r Hl Hs Hv He)
      as (Hstore & _ & _).
    exact Hstore. }
  split; [exact Hcall |].
  intros Hcl Hle. eexists. split.
  - eapply Hcall. by apply enhance_alert_unconfigured.
  - simpl. unfold default_response. simplify_map_eq.
    split; [done |]. split; [| done].
    unfold severity_of.
    assert (H80 : gt c 80 = false) by (apply gt_false; lra).
    rewrite H80. by destruct (gt c 60).
Qed.

Lemma last_evict_snoc {A : Type} cap (xs : list A) x :
  0 < cap -> last (evict cap (xs ++ [x])) = Some x.
Proof.
  intros Hcap. unfold evict. rewrite length_app. simpl.
  destruct (Nat.ltb_spec cap (length xs + 1)); [| apply last_snoc].
  destruct xs as [| y xs]; simpl in *; [lia | apply last_snoc].
Qed.

Lemma append_assoc (a b c : string) : (a +:+ b) +:+ c = a +:+ (b +:+ c).
Proof.
  induction a as [| ch a IH]; [done |].
  change (String ch ((a +:+ b) +:+ c) = String ch (a +:+ (b +:+ c))).
  by rewrite IH.
Qed.

Lemma prefix_refl s : String.prefix s s = true.
Proof.
  induction s as [| a s IH]; simpl; [done |].
  destruct (ascii_dec a a); [exact IH | done].
Qed.

Lemma contains_append_r a s : contains s (a +:+ s) = true.
Proof.
  induction a as [| ch a IH]; simpl.
  - apply contains_prefix, prefix_refl.
  - rewrite IH. apply orb_true_r.
Qed.

Lemma tick_logs_store t s :
  logs_store (background_monitor_tick py_str t s) =
  evict 100 (logs_store s ++ [tick_line py_str t]).
Proof.
  unfold tick_line, tick_event.
  destruct (acquire t) as [[m [[c me] d]] | ex] eqn:Ha.
  - rewrite (tick_acquired _ _ _ _ _ _ Ha). by rewrite add_log_logs_store.
  - rewrite (tick_failed _ _ _ Ha). by rewrite add_log_logs_store.
Qed.

Lemma background_monitor_snoc ticks t s :
  background_monitor py_str (ticks ++ [t]) s =
  background_monitor_tick py_str t (background_monitor py_str ticks s).
Proof. unfold background_monitor. by rewrite fold_left_app. Qed.

(** C8. A tick whose acquisition raises (the metric source itself, or a
    reading missing from the snapshot) ends in the handler: the state after
    the tick is that of [add_log("error", "Monitor Error: " + str(e))], the
    newest log line is the ERROR line and contains the message. The loop
    then runs the next tick from that state; after any number of ticks,
    failed or not, the event log is the last 100 of the lines of all of
    them, one per tick. *)
Theorem monitor_survives_failures (svc : option AIService)
    (ticks : list tick_env) (t : tick_env) (s : app_state) (m : metrics) :
  (forall ex, acquire t = Raise ex ->
     background_monitor_tick py_str t s =
       add_log py_str (during t) "error" ("Monitor Error: " +:+ exn_str ex)
         None s /\
     last (logs_store (background_monitor_tick py_str t s)) =
       Some (strftime (during t) +:+ " | ERROR | Monitor Error: " +:+ exn_str ex) /\
     contains (exn_str ex)
       (strftime (during t) +:+ " | ERROR | Monitor Error: " +:+ exn_str ex)
       = true) /\
  ((forall ex, get_system_metrics t = Raise ex -> acquire t = Raise ex) /\
   (get_system_metrics t = Ok m -> cpu m = None ->
      acquire t = Raise (KeyError "cpu"))) /\
  background_monitor py_str (ticks ++ [t]) s =
    background_monitor_tick py_str t (background_monitor py_str ticks s) /\
  logs_store (background_monitor py_str ticks (app_init svc)) =
    last_n 100 (map (tick_line py_str) ticks).
Proof.
  split; [| split; [| split]].
  - intros ex Ha. split; [by apply tick_failed |]. split.
    + rewrite tick_logs_store. unfold tick_line, tick_event. rewrite Ha.
      apply last_evict_snoc. lia.
    + replace (strftime (during t) +:+ " | ERROR | Monitor Error: " +:+ exn_str ex)
        with ((strftime (during t) +:+ " | ERROR | Monitor Error: ") +:+ exn_str ex).
      * apply contains_append_r.
      * by rewrite !append_assoc.
  - split.
    + intros ex H. unfold acquire. by rewrite H.
    + intros H Hc. unfold acquire. rewrite H. simpl. by rewrite Hc.
  - apply background_monitor_snoc.
  - induction ticks as [| t' ticks IH] using rev_ind; [done |].
    rewrite background_monitor_snoc, tick_logs_store, IH, map_app. simpl.
    rewrite evict_last_n by apply length_last_n.
    apply last_n_snoc.
Qed.

End Loop.

Section Recommendations.

Variable py_str : json -> string.

(** C7. For a snapshot with CPU [c], memory [me] and disk [d],
    [generate_recommendations] checks c > 70, me > 80 and d > 85 one after
    the other and independently, and emits for each crossed threshold one
    record, in the order CPU, memory, disk: the CPU and memory records have
    priority "high", the disk record "critical". There are never more than
    3, and the summary states how many. A reading missing from the dict
    counts as 0. A snapshot at 75/50/50 gives the CPU record alone, one at
    10/10/10 gives none and "Found 0 optimization opportunities", one at
    10/95/99 the memory and disk records, one at 95/95/95 all three. *)
Theorem recommendations_by_threshold (now : string) (c me d : Q)
    (m : metrics) :
  let report := generate_recommendations py_str now (snapshot c me d) in
  recommendations report =
    (if gt c 70 then [cpu_recommendation py_str c] else []) ++
    (if gt me 80 then [memory_recommendation py_str me] else []) ++
    (if gt d 85 then [disk_recommendation py_str d] else []) /\
  ((cpu_recommendation py_str c ∈ recommendations report <-> (70 < c)%Q) /\
   (memory_recommendation py_str me ∈ recommendations report <-> (80 < me)%Q) /\
   (disk_recommendation py_str d ∈ recommendations report <-> (85 < d)%Q)) /\
  ((rec_type (cpu_recommendation py_str c) = "cpu" /\
    priority (cpu_recommendation py_str c) = "high") /\
   (rec_type (memory_recommendation py_str me) = "memory" /\
    priority (memory_recommendation py_str me) = "high") /\
   (rec_type (disk_recommendation py_str d) = "disk" /\
    priority (disk_recommendation py_str d) = "critical")) /\
  length (recommendations report) <= 3 /\
  (summary report =
     "Found " +:+ str_nat (length (recommendations report)) +:+
     " optimization opportunities" /\
   timestamp report = now) /\
  generate_recommendations py_str now m =
    generate_recommendations py_str now
      (snapshot
         (match cpu m with Some v => v | None => 0%Q end)
         (match memory m with Some (Usage (Some v)) => v | _ => 0%Q end)
         (match disk m with Some (Usage (Some v)) => v | _ => 0%Q end)) /\
  (recommendations (generate_recommendations py_str now (snapshot 75 50 50)) =
     [cpu_recommendation py_str 75] /\
   summary (generate_recommendations py_str now (snapshot 75 50 50)) =
     "Found 1 optimization opportunities") /\
  (recommendations (generate_recommendations py_str now (snapshot 10 10 10)) = [] /\
   summary (generate_recommendations py_str now (snapshot 10 10 10)) =
     "Found 0 optimization opportunities") /\
  (recommendations (generate_recommendations py_str now (snapshot 10 95 99)) =
     [memory_recommendation py_str 95; disk_recommendation py_str 99] /\
   summary (generate_recommendations py_str now (snapshot 10 95 99)) =
     "Found 2 optimization opportunities") /\
  (recommendations (generate_recommendations py_str now (snapshot 95 95 95)) =
     [cpu_recommendation py_str 95; memory_recommendation py_str 95;
      disk_recommendation py_str 95] /\
   summary (generate_recommendations py_str now (snapshot 95 95 95)) =
     "Found 3 optimization opportunities").
Proof.
  intros report.
  assert (Hrecs : recommendations report =
    (if gt c 70 then [cpu_recommendation py_str c] else []) ++
    (if gt me 80 then [memory_recommendation py_str me] else []) ++
    (if gt d 85 then [disk_recommendation py_str d] else [])).
  { subst report. unfold generate_recommendations, get_cpu, get_percent.
    simpl. destruct (gt c 70), (gt me 80), (gt d 85); done. }
  split; [exact Hrecs |].
  split.
  { rewrite Hrecs. rewrite <- !gt_true.
    destruct (gt c 70), (gt me 80), (gt d 85); simpl;
      repeat split; intros H; try done;
      repeat (apply elem_of_cons in H as [H | H]; [discriminate H |]);
      try (by apply elem_of_nil in H); try set_solver. }
  split; [done |].
  split.
  { rewrite Hrecs. destruct (gt c 70), (gt me 80), (gt d 85); simpl; lia. }
  split; [done |].
  split.
  { destruct m as [[v |] [[[v' |]] |] [[[v'' |]] |]]; reflexivity. }
  done.
Qed.

End Recommendations.

(** ** Concrete runs *)




Lemma fallback_deterministic_witness :
  (80 < 85)%Q /\ @severity_of 85 = "high".
Proof.
  split; [reflexivity |].
  destruct (fallback_deterministic str_simple [] timed_out
              "2024-01-01T12:00:00" "warning" "CPU" 85 None None)
    as (_ & _ & (Hhigh & _ & _) & _).
  apply Hhigh. reflexivity.
Defined.

(** The first successful call on a fresh object appends its record. *)
Lemma history_appended_on_success_only_witness :
  enhance_alert_call str_simple (cpu_alert (replying (JObj odd_reply)))
    (AIService_init true) =
  Ok ({| client := true;
         alert_history :=
           [history_record "2024-01-01T12:00:00" "CPU" 85 odd_reply] |},
      odd_reply).
Proof.
  destruct (history_appended_on_success_only str_simple true []
              (cpu_alert (replying (JObj odd_reply))) [])
    as (_ & Hok & _ & _).
  apply (Hok odd_reply); reflexivity.
Defined.

(** C6 as stated fails: a reply with severity "catastrophic" is stored in
    the alert log, counted under that label and kept in the history. *)
Lemma severity_outside_tiers_stored :
  let s := add_log_call str_simple (cpu_warning (replying (JObj odd_reply)))
             (app_init (Some (AIService_init true))) in
  map severity (ai_alerts_store s) = [JStr "catastrophic"] /\
  PROM_AI_ALERTS s !! "catastrophic" = Some 1 /\
  (map ar_severity <$> (alert_history <$> ai_service s)) =
    Some [JStr "catastrophic"] /\
  JStr "catastrophic" <> JStr "low" /\ JStr "catastrophic" <> JStr "medium" /\
  JStr "catastrophic" <> JStr "high".
Proof. vm_compute. repeat split; done. Qed.

Lemma severity_stored_as_replied_witness :
  exists entry,
    alert_of str_simple (cpu_warning (replying (JObj odd_reply)))
      (app_init (Some (AIService_init true))) = Some entry /\
    severity entry = JStr "catastrophic".
Proof.
  eexists. split; [reflexivity |].
  destruct (severity_stored_as_replied str_simple
              (cpu_warning (replying (JObj odd_reply)))
              (app_init (Some (AIService_init true))) _ eq_refl)
    as (self & value & Hs & _ & Hsev & _).
  injection Hs as <-. rewrite Hsev. reflexivity.
Defined.

(** A failed tick logs its ERROR line. *)
Lemma monitor_survives_failures_witness :
  acquire sensor_offline = Raise (Exn "RuntimeError" "sensor offline") /\
  last (logs_store (background_monitor_tick str_simple sensor_offline
                      (app_init None))) =
  Some "12:00:00 | ERROR | Monitor Error: sensor offline".
Proof.
  split; [reflexivity |].
  destruct (monitor_survives_failures str_simple None [] sensor_offline
              (app_init None) (snapshot 0 0 0)) as (Hfail & _).
  destruct (Hfail _ eq_refl) as (_ & Hlast & _). exact Hlast.
Defined.

(** Memory at 95 percent with an idle CPU: the alert is rated "low". *)
Lemma enrichment_value_is_cpu_witness :
  acquire memory_spike = Ok (snapshot 10 95 50, (10%Q, 95%Q, 50%Q)) /\
  (classify str_simple 7 10 95 50).1 = "critical" /\
  exists entry,
    ai_alerts_store (background_monitor_tick str_simple memory_spike
                       (app_init (Some (AIService_init false)))) =
      evict 20 ([] ++ [entry]) /\
    severity entry = JStr (severity_of 10) /\
    severity_of 10 = "low".
Proof.
  split; [reflexivity |]. split; [reflexivity |].
  destruct (enrichment_value_is_cpu str_simple memory_spike
              (app_init (Some (AIService_init false))) (AIService_init false)
              (snapshot 10 95 50) 10 95 50 eq_refl eq_refl eq_refl)
    as (_ & _ & Hfb).
  destruct (Hfb eq_refl) as (entry & Hstore & Hsev & _ & _).
  { unfold Qle. simpl. lia. }
  exists entry. split; [exact Hstore |]. split; [exact Hsev | reflexivity].
Defined.

(** ** Further properties of the gateway *)

Section Slices.

Context {A : Type}.
Implicit Types (xs ys : list A).

Lemma last_n_length n xs : length (last_n n xs) = n `min` length xs.
Proof. unfold last_n. rewrite length_drop. lia. Qed.

Lemma last_n_last_n n m xs : n <= m -> last_n n (last_n m xs) = last_n n xs.
Proof.
  intros H. unfold last_n. rewrite length_drop, drop_drop. f_equal. lia.
Qed.

Lemma last_n_app_ge n xs ys :
  n <= length ys -> last_n n (xs ++ ys) = last_n n ys.
Proof.
  intros H. unfold last_n. rewrite length_app.
  rewrite drop_app_ge by lia. f_equal. lia.
Qed.

Lemma last_n_nil_inv n xs : 0 < n -> last_n n xs = [] -> xs = [].
Proof.
  intros Hn H. apply (f_equal length) in H. rewrite last_n_length in H.
  simpl in H. destruct xs; [done | simpl in H; lia].
Qed.

End Slices.

Section GatewayMore.

Variable py_str : json -> string.

(** X1. The request depends on the history only through its last three
    records: an object whose history is cut to them issues the same one. *)
Theorem alert_request_last_three (self : AIService)
    (alert_type metric : string) (value : Q)
    (server : option (gmap string string)) (threshold : option Q) :
  alert_request self alert_type metric value server threshold =
  alert_request
    {| client := client self; alert_history := last_n 3 (alert_history self) |}
    alert_type metric value server threshold.
Proof.
  unfold alert_request. simpl.
  destruct (alert_history self) as [| r h] eqn:Hh; [done |].
  rewrite last_n_last_n by lia.
  destruct (last_n 3 (r :: h)) eqn:Hl; [| done].
  apply last_n_nil_inv in Hl; [done | lia].
Qed.

(** X2. When no client is configured or the service fails,
    [analyze_system_state] on a snapshot with CPU [c] and memory [me]
    answers with status "warning" exactly when c > 80 or me > 85 and with
    "healthy" otherwise, never with "critical", whatever the disk reading:
    a snapshot the monitor logs as "Disk Critical" is reported healthy. *)
Theorem fallback_analysis_status (self : AIService) (svc : service)
    (c me d : Q) (recent_logs : list string) (now : Z) :
  client self = false \/ failing svc ->
  exists body,
    analyze_system_state self svc (snapshot c me d) recent_logs
      = Ok (JObj body) /\
    (body !! "status" = Some (JStr "warning") <-> (80 < c)%Q \/ (85 < me)%Q) /\
    (body !! "status" = Some (JStr "healthy") <-> (c <= 80)%Q /\ (me <= 85)%Q) /\
    body !! "status" <> Some (JStr "critical") /\
    ((c <= 70)%Q -> (me <= 80)%Q -> (90 < d)%Q ->
     (classify py_str now c me d).1 = "critical" /\
     body !! "status" = Some (JStr "healthy")).
Proof.
  intros H. exists (simulate_analysis (snapshot c me d) recent_logs).
  split.
  { unfold analyze_system_state, call. destruct H as [-> | Hf]; [done |].
    destruct (negb (client self)); [done |].
    by destruct (Hf (SystemAnalysis (get_cpu (snapshot c me d))
                       (get_percent (memory (snapshot c me d)))
                       (get_percent (disk (snapshot c me d)))
                       (String.concat newline (last_n 10 recent_logs))))
      as [e ->]. }
  unfold simulate_analysis, get_cpu, get_percent. simpl.
  assert (Hstatus : forall b : bool,
            ({[ "status" := JStr (if b then "warning" else "healthy");
                "findings" := JArr [JStr "System monitoring active";
                                    JStr "Using simulated AI analysis"];
                "risks" := JArr [JStr "No real AI insights available"];
                "optimization" :=
                  JArr [JStr "Enable AI service for detailed analysis"] ]}
               : gmap string json) !! "status" =
            Some (JStr (if b then "warning" else "healthy"))).
  { intros b. by simplify_map_eq. }
  rewrite Hstatus. clear Hstatus.
  destruct (gt c 80 || gt me 85) eqn:Hb.
  - assert (Hor : (80 < c)%Q \/ (85 < me)%Q).
    { apply orb_true_iff in Hb as [Hb | Hb]; apply gt_true in Hb; tauto. }
    split; [split; [by intros _ | reflexivity] |].
    split; [split; [discriminate | intros [? ?]; destruct Hor; lra] |].
    split; [discriminate |].
    intros H70 H80 H90. destruct Hor; lra.
  - apply orb_false_iff in Hb as [Hc Hm].
    apply gt_false in Hc. apply gt_false in Hm.
    split; [split; [discriminate | intros [? | ?]; lra] |].
    split; [split; [by intros _ | reflexivity] |].
    split; [discriminate |].
    intros H70 H80 H90. split; [| reflexivity]. unfold classify.
    assert (E1 : gt c 90 = false) by (apply gt_false; lra).
    assert (E2 : gt c 70 = false) by (by apply gt_false).
    assert (E3 : gt me 90 = false) by (apply gt_false; lra).
    assert (E4 : gt me 80 = false) by (by apply gt_false).
    assert (E5 : gt d 90 = true) by (by apply gt_true).
    by rewrite E1, E2, E3, E4, E5.
Qed.

(** X3. [analyze_system_state] uses of the log lines it is given only the
    last ten: older lines change neither the request nor the result. *)
Theorem analyze_system_state_last_ten (self : AIService) (svc : service)
    (m : metrics) (older recent : list string) :
  10 <= length recent ->
  analyze_system_state self svc m (older ++ recent) =
  analyze_system_state self svc m recent.
Proof.
  intros H. unfold analyze_system_state.
  by rewrite last_n_app_ge by done.
Qed.

(** X4. [query_logs_natural_language] uses of the log lines it is given
    only the last fifty. *)
Theorem query_logs_last_fifty (self : AIService) (svc : service)
    (question : string) (older recent : list string) :
  50 <= length recent ->
  query_logs_natural_language self svc question (older ++ recent) =
  query_logs_natural_language self svc question recent.
Proof.
  intros H. unfold query_logs_natural_language.
  by rewrite last_n_app_ge by done.
Qed.

End GatewayMore.

Section InsightsFacts.

Lemma prefix_lower needle hay :
  String.prefix needle hay = true ->
  String.prefix (lower needle) (lower hay) = true.
Proof.
  revert needle. induction hay as [| b hay IH]; intros needle H.
  - by destruct needle.
  - destruct needle as [| a needle]; [done |]. simpl in *.
    destruct (ascii_dec a b) as [-> | Hne]; [| done].
    destruct (ascii_dec (lower_ascii b) (lower_ascii b)); [by apply IH | done].
Qed.

Lemma prefix_append needle hay rest :
  String.prefix needle hay = true ->
  String.prefix needle (hay +:+ rest) = true.
Proof.
  revert needle. induction hay as [| b hay IH]; intros needle H.
  - destruct needle; [by destruct rest | done].
  - destruct needle as [| a needle]; [done |].
    change (String b hay +:+ rest) with (String b (hay +:+ rest)).
    simpl in *. destruct (ascii_dec a b); [by apply IH | done].
Qed.

Lemma contains_lower needle hay :
  contains needle hay = true -> contains (lower needle) (lower hay) = true.
Proof.
  induction hay as [| b hay IH]; simpl; intros H.
  - rewrite orb_false_r in *. by apply (prefix_lower needle EmptyString).
  - apply orb_true_iff in H as [H | H].
    + apply (prefix_lower needle (String b hay)) in H. simpl in H.
      rewrite H. done.
    + rewrite (IH H). apply orb_true_r.
Qed.

(** The first test of [is_error_line] is subsumed by the second. *)
Lemma is_error_line_lower log :
  is_error_line log = contains "error" (lower log).
Proof.
  unfold is_error_line.
  destruct (contains "ERROR" log) eqn:E; [| done].
  apply contains_lower in E. simpl. symmetry. exact E.
Qed.

Lemma filter_is_error_line logs :
  List.filter is_error_line logs =
  List.filter (fun log => contains "error" (lower log)) logs.
Proof.
  induction logs as [| log logs IH]; [done |]. simpl.
  by rewrite is_error_line_lower, IH.
Qed.

Lemma length_filter_le {A : Type} (f : A -> bool) (l : list A) :
  length (List.filter f l) <= length l.
Proof.
  induction l as [| x l IH]; simpl; [done |]. destruct (f x); simpl; lia.
Qed.

Lemma contains_cons s ch hay :
  contains s (String ch hay) =
  String.prefix s (String ch hay) || contains s hay.
Proof. reflexivity. Qed.

Lemma contains_append_l s a b :
  contains s a = true -> contains s (a +:+ b) = true.
Proof.
  induction a as [| ch a IH]; intros H.
  - simpl in H. rewrite orb_false_r in H. apply contains_prefix.
    by apply (prefix_append s EmptyString b).
  - change (String ch a +:+ b) with (String ch (a +:+ b)).
    rewrite contains_cons in *.
    apply orb_true_iff in H as [H | H].
    + apply (prefix_append s (String ch a) b) in H.
      change (String ch a +:+ b) with (String ch (a +:+ b)) in H.
      by rewrite H.
    + rewrite (IH H). apply orb_true_r.
Qed.

Lemma contains_middle s a b : contains s (a +:+ s +:+ b) = true.
Proof.
  rewrite <- append_assoc. apply contains_append_l, contains_append_r.
Qed.

End InsightsFacts.

Section Insights.

Variable py_str : json -> string.

Lemma insights_list self now m recent_logs :
  insights (get_system_insights self now m recent_logs) =
  (if gt (get_cpu m) 70 then [cpu_insight] else []) ++
  (if gt (get_percent (memory m)) 80 then [memory_insight] else []) ++
  (if 5 <? length (List.filter (fun log => contains "error" (lower log))
                     recent_logs)
   then [error_insight (length (List.filter
                                  (fun log => contains "error" (lower log))
                                  recent_logs))]
   else []).
Proof.
  unfold get_system_insights. simpl. rewrite filter_is_error_line.
  destruct (gt (get_cpu m) 70), (gt (get_percent (memory m)) 80),
    (5 <? _); done.
Qed.

Lemma error_insight_not_fixed n :
  error_insight n <> cpu_insight /\ error_insight n <> memory_insight.
Proof. split; discriminate. Qed.

Lemma elem_of_optional {A : Type} (b : bool) (x y : A) :
  x ∈ (if b then [y] else []) <-> b = true /\ x = y.
Proof.
  destruct b; [rewrite list_elem_of_singleton | rewrite elem_of_nil];
    intuition congruence.
Qed.

(** X5. On a snapshot with CPU [c] and memory [me],
    [get_system_insights] reports the CPU exactly when c > 70 and the
    memory exactly when me > 80; a reading missing from the dict is never
    reported. It reports errors exactly when more than five of the lines
    it is given contain "error" in any letter case (the separate test for
    "ERROR" adds nothing); so with five lines or fewer it never reports
    errors, and there are at most three insights. *)
Theorem insights_by_threshold (self : AIService) (now : string)
    (c me d : Q) (m : metrics) (recent_logs : list string) :
  let report := get_system_insights self now (snapshot c me d) recent_logs in
  let other := get_system_insights self now m recent_logs in
  let count :=
    length (List.filter (fun log => contains "error" (lower log)) recent_logs) in
  (cpu_insight ∈ insights report <-> (70 < c)%Q) /\
  (memory_insight ∈ insights report <-> (80 < me)%Q) /\
  ((exists n, error_insight n ∈ insights other) <-> 5 < count) /\
  (5 < count -> error_insight count ∈ insights other) /\
  (length recent_logs <= 5 -> forall n, error_insight n ∉ insights other) /\
  length (insights other) <= 3 /\
  (cpu m = None -> cpu_insight ∉ insights other) /\
  (memory m = None \/ memory m = Some (Usage None) ->
   memory_insight ∉ insights other) /\
  insights (get_system_insights self now (snapshot 75 85 10) []) =
    [cpu_insight; memory_insight].
Proof.
  intros report other count.
  assert (Hin : forall m' x,
            x ∈ insights (get_system_insights self now m' recent_logs) <->
            (gt (get_cpu m') 70 = true /\ x = cpu_insight) \/
            (gt (get_percent (memory m')) 80 = true /\ x = memory_insight) \/
            ((5 <? count) = true /\ x = error_insight count)).
  { intros m' x. rewrite insights_list. fold count.
    by rewrite !elem_of_app, !elem_of_optional. }
  assert (Hcount : count <= length recent_logs) by apply length_filter_le.
  assert (Hfix := error_insight_not_fixed).
  assert (Hcm : cpu_insight <> memory_insight) by discriminate.
  assert (Hfc := fun n => proj1 (Hfix n)).
  assert (Hfm := fun n => proj2 (Hfix n)).
  split.
  { subst report. rewrite Hin. unfold get_cpu. simpl. rewrite <- gt_true.
    split; [| by left].
    intros [[H _] | [[_ H] | [_ H]]]; [done | done | by destruct (Hfc count)]. }
  split.
  { subst report. rewrite Hin. unfold get_percent. simpl. rewrite <- gt_true.
    split; [| by right; left].
    intros [[_ H] | [[H _] | [_ H]]];
      [by destruct Hcm | done | by destruct (Hfm count)]. }
  subst other.
  split.
  { split.
    - intros [n Hn]. apply Hin in Hn. apply Nat.ltb_lt.
      destruct Hn as [[_ Hn] | [[_ Hn] | [Hn _]]];
        [by destruct (Hfc n) | by destruct (Hfm n) | done].
    - intros H. exists count. apply Hin. apply Nat.ltb_lt in H.
      by right; right. }
  split.
  { intros H. apply Hin. apply Nat.ltb_lt in H. by right; right. }
  split.
  { intros Hlen n Hn. apply Hin in Hn.
    destruct Hn as [[_ Hn] | [[_ Hn] | [Hn _]]];
      [by destruct (Hfc n) | by destruct (Hfm n) |].
    apply Nat.ltb_lt in Hn. lia. }
  split.
  { rewrite insights_list.
    destruct (gt (get_cpu m) 70), (gt (get_percent (memory m)) 80), (5 <? _);
      simpl; lia. }
  split.
  { intros Hnone Hx. apply Hin in Hx. unfold get_cpu in Hx. rewrite Hnone in Hx.
    destruct Hx as [[H _] | [[_ H] | [_ H]]];
      [done | by destruct Hcm | by destruct (Hfc count)]. }
  split; [| reflexivity].
  intros Hnone Hx. apply Hin in Hx. unfold get_percent in Hx.
  destruct Hx as [[_ H] | [[H _] | [_ H]]];
    [by destruct Hcm | | by destruct (Hfm count)].
  destruct Hnone as [Hnone | Hnone]; by rewrite Hnone in H.
Qed.

Lemma log_line_error c :
  lc_level c = "error" -> is_error_line (log_line c) = true.
Proof.
  intros H. unfold is_error_line, log_line. rewrite H.
  change (upper "error") with "ERROR".
  rewrite <- (append_assoc (strftime (lc_env c)) " | ").
  by rewrite contains_middle.
Qed.

Lemma tick_line_error t ex :
  acquire t = Raise ex -> is_error_line (tick_line py_str t) = true.
Proof.
  intros H. unfold is_error_line, tick_line, tick_event. rewrite H.
  change (upper ("error", "Monitor Error: " +:+ exn_str ex).1) with "ERROR".
  rewrite <- (append_assoc (strftime (during t)) " | ").
  by rewrite contains_middle.
Qed.

Lemma filter_all {A : Type} (f : A -> bool) (l : list A) :
  Forall (fun x => f x = true) l -> List.filter f l = l.
Proof.
  induction 1 as [| x l Hx _ IH]; [done |]. simpl. by rewrite Hx, IH.
Qed.

Lemma background_monitor_logs_store svc ticks :
  logs_store (background_monitor py_str ticks (app_init svc)) =
  last_n 100 (map (tick_line py_str) ticks).
Proof.
  induction ticks as [| t ticks IH] using rev_ind; [done |].
  rewrite background_monitor_snoc, tick_logs_store, IH, map_app. simpl.
  rewrite evict_last_n by apply length_last_n.
  apply last_n_snoc.
Qed.

End Insights.

(** ** Further properties of the monitor *)

Section MonitorMore.

Variable py_str : json -> string.

Lemma add_log_plain e level message m s :
  mem level ["warning"; "error"; "critical"] = false \/
  ai_service s = None \/
  (exists ex, alert_value m = Raise ex) ->
  add_log py_str e level message m s =
  inc_PROM_LOGS level
    (set_logs_store
       (evict 100 (logs_store s ++
          [strftime e +:+ " | " +:+ upper level +:+ " | " +:+ message])) s).
Proof.
  intros H. unfold add_log. cbn [ai_service set_logs_store].
  destruct (mem level _) eqn:Hl; [| done].
  destruct (ai_service s) as [self |] eqn:Hs; [| done].
  destruct H as [H | [H | [ex H]]]; [done | done |].
  unfold add_log_try. by rewrite H.
Qed.

Lemma alert_value_raises m :
  (exists ex, alert_value m = Raise ex) <->
  exists d, m = Some d /\ truthy d = true /\ cpu d = None.
Proof.
  unfold alert_value. split.
  - intros [ex H]. destruct m as [d |]; [| done]. exists d.
    destruct (truthy d); [| done]. by destruct (cpu d).
  - intros (d & -> & -> & ->). by eexists.
Qed.

(** X6. [add_log] touches the alert log, the alert counters and the service
    object only when the level is warning, error or critical, a service
    object exists and the snapshot (if one is given and not empty) has a
    CPU reading. In every other case, a snapshot without 'cpu' included,
    the call only appends its line and counts it. *)
Theorem add_log_without_enrichment (e : env) (level message : string)
    (m : option metrics) (s : app_state) :
  mem level ["warning"; "error"; "critical"] = false \/
  ai_service s = None \/
  (exists d, m = Some d /\ truthy d = true /\ cpu d = None) ->
  add_log py_str e level message m s =
  inc_PROM_LOGS level
    (set_logs_store
       (evict 100 (logs_store s ++
          [strftime e +:+ " | " +:+ upper level +:+ " | " +:+ message])) s).
Proof.
  intros H. apply add_log_plain.
  destruct H as [H | [H | H]]; [by left | by right; left | right; right].
  by apply alert_value_raises.
Qed.

Lemma add_log_side e level message m s :
  let s' := add_log py_str e level message m s in
  PROM_LOGS s' = inc level (PROM_LOGS s) /\
  PROM_CPU s' = PROM_CPU s /\ PROM_MEM s' = PROM_MEM s /\
  PROM_DISK s' = PROM_DISK s.
Proof.
  unfold add_log. cbn [ai_service set_logs_store].
  destruct (mem level _); simpl; [| done].
  destruct (ai_service s) as [self |]; simpl; [| done].
  unfold add_log_try.
  destruct (alert_value m) as [value | ex]; simpl; [| done].
  destruct (enhance_alert_returns py_str self (reasoning e) (isoformat e) level
              (alert_metric message) value (Some localhost) None) as [r ->].
  done.
Qed.

(** X7. A tick that acquires its snapshot sets the three gauges to the
    readings; a tick whose acquisition fails leaves them at their previous
    values, so the exporter keeps showing the last good reading. *)
Theorem gauges_follow_readings (t : tick_env) (s : app_state) :
  let s' := background_monitor_tick py_str t s in
  (forall m c me d, acquire t = Ok (m, (c, me, d)) ->
     PROM_CPU s' = c /\ PROM_MEM s' = me /\ PROM_DISK s' = d) /\
  (forall ex, acquire t = Raise ex ->
     PROM_CPU s' = PROM_CPU s /\ PROM_MEM s' = PROM_MEM s /\
     PROM_DISK s' = PROM_DISK s).
Proof.
  intros s'. subst s'. split.
  - intros m c me d Ha. rewrite (tick_acquired _ _ _ _ _ _ _ Ha).
    by destruct (add_log_side (during t)
                   (classify py_str (time_time t) c me d).1
                   (classify py_str (time_time t) c me d).2 (Some m)
                   (set_gauges c me d s)) as (_ & -> & -> & ->).
  - intros ex Ha. rewrite (tick_failed _ _ _ _ Ha).
    by destruct (add_log_side (during t) "error"
                   ("Monitor Error: " +:+ exn_str ex) None s)
      as (_ & -> & -> & ->).
Qed.

Lemma inc_lookup (k l : string) (c : gmap string nat) :
  default 0 (inc k c !! l) =
  (if String.eqb k l then 1 else 0) + default 0 (c !! l).
Proof.
  unfold inc. destruct (String.eqb_spec k l) as [-> | Hne].
  - by rewrite lookup_insert_eq.
  - by rewrite lookup_insert_ne.
Qed.

Lemma tick_PROM_LOGS t s :
  PROM_LOGS (background_monitor_tick py_str t s) =
  inc (tick_event py_str t).1 (PROM_LOGS s).
Proof.
  unfold tick_event.
  destruct (acquire t) as [[m [[c me] d]] | ex] eqn:Ha.
  - rewrite (tick_acquired _ _ _ _ _ _ _ Ha).
    by destruct (add_log_side (during t)
                   (classify py_str (time_time t) c me d).1
                   (classify py_str (time_time t) c me d).2 (Some m)
                   (set_gauges c me d s)) as (-> & _).
  - rewrite (tick_failed _ _ _ _ Ha).
    by destruct (add_log_side (during t) "error"
                   ("Monitor Error: " +:+ exn_str ex) None s) as (-> & _).
Qed.

(** X8. The per-level counter counts every tick: after any number of ticks
    of a fresh process, the count under a level is the number of ticks
    whose event had that level, with no bound, while the event log keeps
    100 lines. *)
Theorem level_counter_counts_ticks (svc : option AIService)
    (ticks : list tick_env) (level : string) :
  default 0 (PROM_LOGS (background_monitor py_str ticks (app_init svc)) !! level) =
  length (List.filter (fun t => String.eqb (tick_event py_str t).1 level) ticks).
Proof.
  induction ticks as [| t ticks IH] using rev_ind; [done |].
  rewrite background_monitor_snoc, tick_PROM_LOGS, inc_lookup, IH.
  rewrite List.filter_app, length_app. simpl.
  destruct (String.eqb _ level); simpl; lia.
Qed.

End MonitorMore.

Section AlertsMore.

Variable py_str : json -> string.

Lemma add_log_call_alert_side c s :
  match alert_of py_str c s with
  | Some entry =>
      PROM_AI_ALERTS (add_log_call py_str c s) =
        inc (py_str (severity entry)) (PROM_AI_ALERTS s) /\
      ae_level entry = lc_level c /\
      ae_timestamp entry = strftime (lc_env c) /\
      original_message entry = lc_message c /\
      mem (lc_level c) ["warning"; "error"; "critical"] = true
  | None =>
      PROM_AI_ALERTS (add_log_call py_str c s) = PROM_AI_ALERTS s /\
      ai_service (add_log_call py_str c s) = ai_service s
  end.
Proof.
  unfold alert_of, add_log_call, add_log. cbn [ai_service set_logs_store].
  destruct (mem (lc_level c) _) eqn:Hl; [| done].
  destruct (ai_service s) as [self |] eqn:Hs; [| done].
  unfold add_log_try.
  destruct (alert_value (lc_metrics c)) as [value | ex]; simpl; [| done].
  destruct (enhance_alert_returns py_str self (reasoning (lc_env c))
              (isoformat (lc_env c)) (lc_level c)
              (alert_metric (lc_message c)) value (Some localhost) None)
    as [r ->].
  done.
Qed.

(** X9. The alert counters agree with the alert log's history: after any
    run of [add_log] calls of a fresh process, the count under a label is
    the number of alert entries ever appended whose severity prints as that
    label, evicted entries included. *)
Theorem alert_counter_counts_entries (svc : option AIService)
    (calls : list log_call) (label : string) :
  default 0 (PROM_AI_ALERTS (add_logs py_str calls (app_init svc)) !! label) =
  length (List.filter (fun entry => String.eqb (py_str (severity entry)) label)
            (alerts_appended py_str calls (app_init svc))).
Proof.
  induction calls as [| c calls IH] using rev_ind; [done |].
  rewrite add_logs_snoc, alerts_appended_snoc.
  rewrite List.filter_app, length_app, <- IH.
  pose proof (add_log_call_alert_side c
                (add_logs py_str calls (app_init svc))) as H.
  destruct (alert_of py_str c _) as [entry |].
  - destruct H as (-> & _). rewrite inc_lookup. simpl.
    destruct (String.eqb _ label); simpl; lia.
  - destruct H as (-> & _). simpl. lia.
Qed.

Lemma alerts_appended_sound calls s :
  Forall (fun entry =>
            mem (ae_level entry) ["warning"; "error"; "critical"] = true /\
            (ae_timestamp entry +:+ " | " +:+ upper (ae_level entry) +:+
               " | " +:+ original_message entry) ∈ map log_line calls)
    (alerts_appended py_str calls s).
Proof.
  revert s. induction calls as [| c calls IH]; intros s; simpl; [done |].
  apply Forall_app. split.
  - pose proof (add_log_call_alert_side c s) as H.
    destruct (alert_of py_str c s) as [entry |]; simpl; [| done].
    destruct H as (_ & Hl & Ht & Hm & Hmem).
    apply Forall_singleton. split; [by rewrite Hl |].
    rewrite Hl, Ht, Hm. apply list_elem_of_here.
  - eapply Forall_impl; [apply IH |]. intros entry [H1 H2].
    split; [done |]. by apply list_elem_of_further.
Qed.

(** X10. Every entry of the alert log belongs to a warning, error or
    critical event, never to an informational one, and its timestamp,
    level and message are those of a line that was logged (which the event
    log may have dropped since). *)
Theorem alert_entries_have_lines (svc : option AIService)
    (calls : list log_call) :
  Forall (fun entry =>
            mem (ae_level entry) ["warning"; "error"; "critical"] = true /\
            (ae_timestamp entry +:+ " | " +:+ upper (ae_level entry) +:+
               " | " +:+ original_message entry) ∈ map log_line calls)
    (ai_alerts_store (add_logs py_str calls (app_init svc))).
Proof.
  rewrite ai_alerts_store_last_n. apply Forall_drop.
  apply (alerts_appended_sound calls (app_init svc)).
Qed.

End AlertsMore.

Section ServiceObject.

Variable py_str : json -> string.

Lemma length_evict_le {A : Type} cap (xs : list A) :
  length (evict cap xs) <= length xs.
Proof.
  unfold evict. destruct (cap <? length xs); [| done].
  destruct xs; simpl; lia.
Qed.

(** What one [add_log] does to the service object. *)
Lemma add_log_call_service c s :
  match ai_service s with
  | None => ai_service (add_log_call py_str c s) = None
  | Some self =>
      exists self',
        ai_service (add_log_call py_str c s) = Some self' /\
        client self' = client self /\
        (alert_history self' = alert_history self \/
         exists record,
           alert_history self' = evict 10 (alert_history self ++ [record]) /\
           is_Some (alert_of py_str c s))
  end.
Proof.
  unfold alert_of, add_log_call, add_log. cbn [ai_service set_logs_store].
  destruct (ai_service s) as [self |] eqn:Hs.
  2: { destruct (mem (lc_level c) _); simpl; by rewrite ?Hs. }
  destruct (mem (lc_level c) _) eqn:Hl; simpl.
  2: { rewrite Hs. exists self. split; [done |]. split; [done |]. by left. }
  unfold add_log_try.
  destruct (alert_value (lc_metrics c)) as [value | ex]; simpl.
  2: { rewrite Hs. exists self. split; [done |]. split; [done |]. by left. }
  destruct (enhance_alert_cases py_str self (reasoning (lc_env c))
              (isoformat (lc_env c)) (lc_level c)
              (alert_metric (lc_message c)) value (Some localhost) None)
    as [He | [d He]].
  - rewrite He. simpl. exists self. split; [done |]. split; [done |]. by left.
  - destruct (client self) eqn:Hc.
    + rewrite He. simpl. eexists. split; [done |]. split; [done |].
      right. eexists. split; [done |]. by eexists.
    + rewrite enhance_alert_unconfigured in He by done. injection He as He _.
      by rewrite He in Hc.
Qed.

(** X11. The service object of [app.py] keeps its shape over any run of
    [add_log] calls: its client flag never changes, its history holds at
    most 10 records and never more records than alert entries were
    appended. Without a service object nothing is ever enriched: the alert
    log and the alert counters stay empty. *)
Theorem service_object_invariant (configured : bool) (calls : list log_call) :
  (exists self,
     ai_service (add_logs py_str calls
                   (app_init (Some (AIService_init configured)))) = Some self /\
     client self = configured /\
     length (alert_history self) <= 10 /\
     length (alert_history self) <=
       length (alerts_appended py_str calls
                 (app_init (Some (AIService_init configured))))) /\
  (ai_service (add_logs py_str calls (app_init None)) = None /\
   ai_alerts_store (add_logs py_str calls (app_init None)) = [] /\
   PROM_AI_ALERTS (add_logs py_str calls (app_init None)) = ∅).
Proof.
  split.
  - induction calls as [| c calls IH] using rev_ind.
    { exists (AIService_init configured). simpl. repeat split; lia. }
    destruct IH as (self & Hs & Hc & Hlen & Hle).
    rewrite add_logs_snoc, alerts_appended_snoc, length_app.
    pose proof (add_log_call_service c
                  (add_logs py_str calls
                     (app_init (Some (AIService_init configured))))) as H.
    rewrite Hs in H. destruct H as (self' & Hs' & Hc' & Hh).
    exists self'. split; [done |]. split; [congruence |].
    destruct Hh as [-> | (record & -> & [entry ->])]; [split; lia |].
    split; [by apply length_evict_snoc |].
    pose proof (length_evict_le 10 (alert_history self ++ [record])) as Hev.
    rewrite length_app in Hev. simpl in *. lia.
  - induction calls as [| c calls IH] using rev_ind; [done |].
    destruct IH as (Hs & Ha & Hp).
    rewrite add_logs_snoc. unfold add_log_call.
    rewrite add_log_plain by (right; by left).
    simpl. by rewrite Hs, Ha, Hp.
Qed.

(** X12. When a client is configured and the service replies with an
    object, one [add_log] writes two records that agree: the newest alert
    entry and the newest history record carry the same severity, and the
    history record names the message text before the colon as the metric
    and the CPU reading as the value. *)
Theorem enriched_alert_matches_history (e : env) (level message : string)
    (m : option metrics) (s : app_state) (self : AIService) (value : Q)
    (d : gmap string json) :
  mem level ["warning"; "error"; "critical"] = true ->
  ai_service s = Some self ->
  client self = true ->
  alert_value m = Ok value ->
  reasoning e (alert_request self level (alert_metric message) value
                 (Some localhost) None) = Replied (JObj d) ->
  let s' := add_log py_str e level message m s in
  exists entry record self',
    last (ai_alerts_store s') = Some entry /\
    ai_service s' = Some self' /\
    last (alert_history self') = Some record /\
    ar_severity record = severity entry /\
    ar_metric record = alert_metric message /\
    ar_value record = value /\
    ar_timestamp record = isoformat e /\
    ae_timestamp entry = strftime e.
Proof.
  intros Hl Hs Hc Hv Hr s'.
  pose proof (enhance_alert_success py_str self (reasoning e) (isoformat e)
                level (alert_metric message) value (Some localhost) None d
                Hc Hr) as He.
  destruct (add_log_enriched py_str e level message m s self value _ d
              Hl Hs Hv He) as (Ha & _ & Hs').
  fold s' in Ha, Hs'.
  eexists _, _, _. split; [rewrite Ha; apply last_evict_snoc; lia |].
  split; [exact Hs' |]. split; [simpl; apply last_evict_snoc; lia |].
  done.
Qed.

End ServiceObject.

Section ClassifierMore.

Variable py_str : json -> string.

(** Closes a goal about the level of one branch of the chain: equalities
    between distinct levels are absurd, the inequalities are linear. *)
Ltac level_facts :=
  repeat split; intros;
  repeat match goal with
         | H : _ /\ _ |- _ => destruct H
         | H : _ \/ _ |- _ => destruct H
         end;
  try discriminate; try reflexivity; try lra;
  try (left; repeat split; lra);
  try (right; left; repeat split; lra);
  try (right; right; repeat split; lra);
  try (left; reflexivity);
  try (right; left; reflexivity);
  try (right; right; reflexivity).

(** X13. The monitor's event is informational exactly when no reading is
    above its warning threshold, and critical exactly when the CPU is above
    90, or the CPU is at most 70 and the memory above 90, or both are
    within bounds and the disk above 90: a CPU between 70 and 90 makes the
    event a warning even with the memory or the disk above 90. The chain
    yields no other level than critical, warning and info. *)
Theorem classify_levels (now : Z) (c me d : Q) :
  let level := (classify py_str now c me d).1 in
  (level = "info" <-> (c <= 70)%Q /\ (me <= 80)%Q /\ (d <= 80)%Q) /\
  (level = "critical" <->
     (90 < c)%Q \/ ((c <= 70)%Q /\ (90 < me)%Q) \/
     ((c <= 70)%Q /\ (me <= 80)%Q /\ (90 < d)%Q)) /\
  (level = "critical" \/ level = "warning" \/ level = "info").
Proof.
  intros level. subst level. unfold classify.
  case_gt c 90%Q; [level_facts |].
  case_gt c 70%Q; [level_facts |].
  case_gt me 90%Q; [level_facts |].
  case_gt me 80%Q; [level_facts |].
  case_gt d 90%Q; [level_facts |].
  case_gt d 80%Q; [level_facts |].
  destruct (now `mod` 30 =? 0)%Z; level_facts.
Qed.

(** X14. Whenever [generate_recommendations] has something to recommend
    for a snapshot, the monitor's event for the same snapshot is a warning
    or critical one. The converse fails only for a disk between 80 and 85
    with CPU and memory within bounds: an event is logged and nothing is
    recommended. *)
Theorem recommendation_implies_event (now : Z) (stamp : string) (c me d : Q) :
  let report := generate_recommendations py_str stamp (snapshot c me d) in
  let level := (classify py_str now c me d).1 in
  (recommendations report <> [] -> level <> "info") /\
  (recommendations report = [] /\ level <> "info" <->
   (c <= 70)%Q /\ (me <= 80)%Q /\ (80 < d)%Q /\ (d <= 85)%Q).
Proof.
  intros report level. subst report level.
  unfold generate_recommendations, classify, get_cpu, get_percent. simpl.
  case_gt c 90%Q.
  { assert (H70 : gt c 70 = true) by (apply gt_true; lra). rewrite H70.
    split; [done |]. split; [| lra].
    intros [H _]. destruct (gt me 80), (gt d 85); discriminate H. }
  case_gt c 70%Q.
  { split; [done |]. split; [| lra].
    intros [H _]. destruct (gt me 80), (gt d 85); discriminate H. }
  case_gt me 90%Q.
  { assert (H80 : gt me 80 = true) by (apply gt_true; lra). rewrite H80.
    split; [done |]. split; [| lra].
    intros [H _]. destruct (gt d 85); discriminate H. }
  case_gt me 80%Q.
  { split; [done |]. split; [| lra].
    intros [H _]. destruct (gt d 85); discriminate H. }
  case_gt d 90%Q.
  { assert (H85 : gt d 85 = true) by (apply gt_true; lra). rewrite H85.
    split; [done |]. split; [| lra]. intros [H _]. discriminate H. }
  case_gt d 80%Q.
  { case_gt d 85%Q.
    - split; [done |]. split; [| lra]. intros [H _]. discriminate H.
    - split; [done |]. split; [| done]. intros _. repeat split; lra. }
  assert (H85 : gt d 85 = false) by (apply gt_false; lra). rewrite H85.
  destruct (now `mod` 30 =? 0)%Z; simpl;
    (split; [done |]); (split; [intros [_ H]; done | lra]).
Qed.

Lemma is_colon_true ch : is_colon ch = true -> ch = ":"%char.
Proof. unfold is_colon. apply Ascii.eqb_eq. Qed.

Lemma before_colon_split message :
  has_colon message = true ->
  exists rest, message = before_colon message +:+ ":" +:+ rest.
Proof.
  induction message as [| ch message IH]; [done |]. simpl.
  destruct (is_colon ch) eqn:E.
  - apply is_colon_true in E as ->. intros _. by exists message.
  - simpl. intros H. destruct (IH H) as [rest Hr]. exists rest.
    change (String ch (before_colon message) +:+ ":" +:+ rest)
      with (String ch (before_colon message +:+ ":" +:+ rest)).
    by rewrite <- Hr.
Qed.

Lemma before_colon_no_colon message : has_colon (before_colon message) = false.
Proof.
  induction message as [| ch message IH]; [done |]. simpl.
  destruct (is_colon ch) eqn:E; [done |]. simpl. by rewrite E, IH.
Qed.

(** X15. The metric name [add_log] hands to [enhance_alert] never contains
    a colon: it is the part of the message before its first colon, or
    "System" for a message without one. *)
Theorem alert_metric_is_head (message : string) :
  has_colon (alert_metric message) = false /\
  (has_colon message = true ->
   exists rest, message = alert_metric message +:+ ":" +:+ rest) /\
  (has_colon message = false -> alert_metric message = "System").
Proof.
  unfold alert_metric. destruct (has_colon message) eqn:E.
  - split; [apply before_colon_no_colon |].
    split; [intros _; by apply before_colon_split | done].
  - done.
Qed.

(** X16. Every request the sampling loop sends to the reasoning service
    carries the threshold 70 and the server localhost/monitoring_server:
    the metric names the loop produces ("CPU Critical", "High Memory
    Usage", "Monitor Error", ...) are not keys of the threshold table, so
    the per-metric defaults 80 and 85 are never used for its memory and
    disk alerts. *)
Theorem loop_requests_threshold_70 (t : tick_env) (self : AIService)
    (value : Q) :
  let level := (tick_event py_str t).1 in
  let metric := alert_metric (tick_event py_str t).2 in
  thresholds !! metric = None /\
  exists context,
    alert_request self level metric value (Some localhost) None =
    AlertExplanation level metric value 70 "localhost" "monitoring_server"
      context.
Proof.
  intros level metric.
  assert (Hm : thresholds !! metric = None).
  { subst metric. unfold tick_event.
    destruct (acquire t) as [[m [[c me] d]] | ex]; [| done].
    unfold classify.
    destruct (gt c 90); [done |]. destruct (gt c 70); [done |].
    destruct (gt me 90); [done |]. destruct (gt me 80); [done |].
    destruct (gt d 90); [done |]. destruct (gt d 80); [done |].
    by destruct (time_time t `mod` 30 =? 0)%Z. }
  split; [exact Hm |].
  unfold alert_request. rewrite Hm. by eexists.
Qed.

End ClassifierMore.

(** ** Properties of the read routes *)

Section RoutesFacts.

Variable py_str : json -> string.

Lemma add_logs_service_presence svc calls :
  match ai_service (add_logs py_str calls (app_init svc)) with
  | Some _ => true
  | None => false
  end = match svc with Some _ => true | None => false end.
Proof.
  induction calls as [| c calls IH] using rev_ind; [done |].
  rewrite add_logs_snoc.
  pose proof (add_log_call_service py_str c
                (add_logs py_str calls (app_init svc))) as H.
  destruct (ai_service (add_logs py_str calls (app_init svc))).
  - destruct H as (self' & -> & _). exact IH.
  - rewrite H. exact IH.
Qed.

(** X17. [/api/data] shows the newest end of both logs: after any run of
    [add_log] calls its body holds the last 20 lines ever logged and the
    last 10 alert entries ever appended, in order, and [ai_enabled] tells
    whether a service object exists. A failure of the metric source is not
    caught by this route: the exception leaves it. *)
Theorem api_data_newest (svc : option AIService) (calls : list log_call)
    (sample : result metrics) (now : string) :
  let s := add_logs py_str calls (app_init svc) in
  (forall m, sample = Ok m ->
     exists field,
       api_data sample now s =
       Ok (Response 200
             (DataBody m (last_n 20 (map log_line calls))
                (last_n 10 (alerts_appended py_str calls (app_init svc)))
                field
                (match svc with Some _ => true | None => false end)))) /\
  (forall ex, sample = Raise ex -> api_data sample now s = Raise ex).
Proof.
  intros s. split.
  - intros m ->. unfold api_data. simpl. eexists.
    subst s. rewrite add_logs_service_presence.
    rewrite logs_store_last_n, ai_alerts_store_last_n.
    by rewrite !last_n_last_n by lia.
  - by intros ex ->.
Qed.

(** X18. [/api/ai/analyze] answers 503 without a service object, 500 with
    the message when the metric source raises, and 200 otherwise, with
    what [analyze_system_state] returns; of the event log only the newest
    ten lines reach the analysis (the route's slice of 50 is cut again). *)
Theorem ai_analyze_responses (sample : result metrics) (svc : service)
    (s : app_state) :
  (ai_service s = None ->
     ai_analyze sample svc s = Response 503 (ErrorBody "AI service unavailable")) /\
  (forall self ex, ai_service s = Some self -> sample = Raise ex ->
     ai_analyze sample svc s = Response 500 (ErrorBody (exn_str ex))) /\
  (forall self m, ai_service s = Some self -> sample = Ok m ->
     exists j,
       analyze_system_state self svc m (last_n 10 (logs_store s)) = Ok j /\
       ai_analyze sample svc s = Response 200 (JsonBody j)).
Proof.
  unfold ai_analyze. split; [by intros -> |]. split.
  - by intros self ex -> ->.
  - intros self m -> ->. simpl.
    assert (Heq : analyze_system_state self svc m (last_n 50 (logs_store s)) =
                  analyze_system_state self svc m (last_n 10 (logs_store s))).
    { unfold analyze_system_state. by rewrite !last_n_last_n by lia. }
    rewrite Heq. unfold analyze_system_state.
    destruct (negb (client self)); simpl; by eexists.
Qed.

(** X19. [/api/ai/query], with a service object: a body that is falsy, or
    an object without the key "question", is refused with 400; an object
    with the key is answered 200 with what [query_logs_natural_language]
    returns for the newest fifty lines of the event log; a string or a
    list that contains "question" passes the check and fails inside the
    [try], giving 500; a non-zero number or [true] makes the membership
    test itself raise, outside any handler. Without a service object the
    answer is 503 whatever the body. *)
Theorem ai_query_responses (data : json) (svc : service) (s : app_state)
    (self : AIService) :
  (ai_service s = None ->
     ai_query py_str data svc s =
     Ok (Response 503 (ErrorBody "AI service unavailable"))) /\
  (ai_service s = Some self ->
   (json_truthy data = false ->
      ai_query py_str data svc s = Ok (Response 400 (ErrorBody "Question required"))) /\
   (forall d, data = JObj d -> d !! "question" = None ->
      ai_query py_str data svc s = Ok (Response 400 (ErrorBody "Question required"))) /\
   (forall d q, data = JObj d -> d !! "question" = Some q ->
      exists j,
        query_logs_natural_language self svc (format_value py_str q)
          (last_n 50 (logs_store s)) = Ok j /\
        ai_query py_str data svc s = Ok (Response 200 (JsonBody j))) /\
   (forall text, data = JStr text -> contains "question" text = true ->
      exists message,
        ai_query py_str data svc s = Ok (Response 500 (ErrorBody message))) /\
   (forall items, data = JArr items -> existsb (is_str "question") items = true ->
      exists message,
        ai_query py_str data svc s = Ok (Response 500 (ErrorBody message))) /\
   ((data = JBool true \/ exists q, data = JNum q /\ Qeq_bool q 0 = false) ->
      exists ex, ai_query py_str data svc s = Raise ex)).
Proof.
  unfold ai_query. split; [by intros -> |]. intros ->.
  split; [by intros -> |]. split.
  { intros d -> Hq. destruct (json_truthy (JObj d)); simpl; [| done].
    rewrite Hq. rewrite bool_decide_eq_false_2; [done |].
    by intros [x Hx]. }
  split.
  { intros d q -> Hq.
    assert (Ht : json_truthy (JObj d) = true).
    { simpl. rewrite bool_decide_eq_false_2; [done |].
      intros ->. by rewrite lookup_empty in Hq. }
    rewrite Ht. simpl. rewrite Hq.
    rewrite bool_decide_eq_true_2 by (by eexists). simpl.
    assert (Heq : query_logs_natural_language self svc (format_value py_str q)
                    (last_n 100 (logs_store s)) =
                  query_logs_natural_language self svc (format_value py_str q)
                    (last_n 50 (logs_store s))).
    { unfold query_logs_natural_language. by rewrite !last_n_last_n by lia. }
    rewrite Heq. unfold query_logs_natural_language.
    destruct (negb (client self)); simpl; by eexists. }
  split.
  { intros text -> Hc.
    assert (Ht : json_truthy (JStr text) = true).
    { simpl. destruct text; [done | done]. }
    rewrite Ht. simpl. rewrite Hc. simpl. by eexists. }
  split.
  { intros items -> Hc.
    assert (Ht : json_truthy (JArr items) = true) by (by destruct items).
    rewrite Ht. simpl. rewrite Hc. simpl. by eexists. }
  intros [-> | (q & -> & Hq)]; simpl; [by eexists |].
  rewrite Hq. simpl. by eexists.
Qed.

(** X20. [/api/ai/recommendations] needs a service object although the
    recommendations use no external service: without one it answers 503.
    With one, configured or not, it answers 200 with the report of
    [generate_recommendations], at most three recommendations, unless the
    metric source raises, which gives 500 with the message. *)
Theorem ai_recommendations_responses (sample : result metrics) (now : string)
    (s : app_state) :
  (ai_service s = None ->
     ai_recommendations py_str sample now s =
     Response 503 (ErrorBody "AI service unavailable")) /\
  (forall self ex, ai_service s = Some self -> sample = Raise ex ->
     ai_recommendations py_str sample now s =
     Response 500 (ErrorBody (exn_str ex))) /\
  (forall self m, ai_service s = Some self -> sample = Ok m ->
     ai_recommendations py_str sample now s =
       Response 200 (ReportBody (generate_recommendations py_str now m)) /\
     length (recommendations (generate_recommendations py_str now m)) <= 3).
Proof.
  unfold ai_recommendations. split; [by intros -> |]. split.
  - by intros self ex -> ->.
  - intros self m -> ->. split; [done |].
    unfold generate_recommendations. simpl.
    destruct (gt (get_cpu m) 70), (gt (get_percent (memory m)) 80),
      (gt (get_percent (disk m)) 85); simpl; lia.
Qed.

(** X21. A failing monitor shows on the dashboard: after six or more ticks
    that all failed to acquire their snapshot, with a service object
    present, [/api/data] reports the errors, counting the failed ticks
    among the newest ten lines. *)
Theorem failed_ticks_reach_dashboard (self0 : AIService)
    (ticks : list tick_env) (m : metrics) (now : string) :
  Forall (fun t => exists ex, acquire t = Raise ex) ticks ->
  6 <= length ticks ->
  exists logs alerts report,
    api_data (Ok m) now
      (background_monitor py_str ticks (app_init (Some self0))) =
    Ok (Response 200 (DataBody m logs alerts (InsightsOf report) true)) /\
    error_insight (10 `min` length ticks) ∈ insights report.
Proof.
  intros Hfail Hlen.
  set (s := background_monitor py_str ticks (app_init (Some self0))).
  assert (Hs : exists self, ai_service s = Some self).
  { subst s. clear Hfail Hlen.
    induction ticks as [| t ticks IH] using rev_ind; [by eexists |].
    destruct IH as [self Hs]. rewrite background_monitor_snoc.
    destruct (acquire t) as [[m' [[c me] d]] | ex] eqn:Ha.
    - rewrite (tick_acquired _ _ _ _ _ _ _ Ha).
      pose proof (add_log_call_service py_str
                    (LogCall (during t)
                       (classify py_str (time_time t) c me d).1
                       (classify py_str (time_time t) c me d).2 (Some m'))
                    (set_gauges c me d
                       (background_monitor py_str ticks
                          (app_init (Some self0))))) as H.
      assert (Hs' : ai_service
                      (set_gauges c me d
                         (background_monitor py_str ticks
                            (app_init (Some self0)))) = Some self)
        by exact Hs.
      rewrite Hs' in H. destruct H as (self' & H & _).
      exists self'. exact H.
    - rewrite (tick_failed _ _ _ _ Ha).
      pose proof (add_log_call_service py_str
                    (LogCall (during t) "error"
                       ("Monitor Error: " +:+ exn_str ex) None)
                    (background_monitor py_str ticks
                       (app_init (Some self0)))) as H.
      rewrite Hs in H. destruct H as (self' & H & _).
      exists self'. exact H. }
  destruct Hs as [self Hs].
  unfold api_data. simpl. rewrite Hs. simpl. eexists _, _, _.
  split; [reflexivity |].
  subst s. rewrite background_monitor_logs_store.
  rewrite last_n_last_n by lia.
  set (lines := last_n 10 (map (tick_line py_str) ticks)).
  assert (Hall : Forall (fun log => is_error_line log = true) lines).
  { subst lines. apply Forall_drop. apply Forall_fmap.
    eapply Forall_impl; [exact Hfail |]. intros t [ex Ha]. simpl.
    by apply (tick_line_error py_str t ex). }
  assert (Hn : length lines = 10 `min` length ticks).
  { subst lines. by rewrite last_n_length, length_map. }
  unfold get_system_insights. simpl.
  rewrite (filter_all _ _ Hall), Hn.
  destruct (Nat.ltb_spec 5 (10 `min` length ticks)) as [_ | Hle]; [| lia].
  rewrite !elem_of_app. right. apply list_elem_of_here.
Qed.

End RoutesFacts.

Section Thresholds.

(** X22. The threshold put in the request is the caller's when it is given
    and not 0; a threshold of 0 is treated like none. Without one the
    table decides: 80 for "memory" and "Memory", 85 for "disk" and "Disk",
    and 70 for every other name, the other spellings of those (such as
    "MEMORY") included, since the lookup is by exact key. *)
Theorem request_threshold (self : AIService) (alert_type metric : string)
    (value : Q) (server : option (gmap string string)) (t : Q) :
  let threshold_of (r : request) : option Q :=
    match r with
    | AlertExplanation _ _ _ th _ _ _ => Some th
    | _ => None
    end in
  (Qeq_bool t 0 = false ->
     threshold_of (alert_request self alert_type metric value server (Some t))
       = Some t) /\
  (Qeq_bool t 0 = true ->
     alert_request self alert_type metric value server (Some t) =
     alert_request self alert_type metric value server None) /\
  (metric ∉ ["cpu"; "memory"; "disk"; "CPU"; "Memory"; "Disk"] ->
     threshold_of (alert_request self alert_type metric value server None)
       = Some 70%Q) /\
  (metric = "memory" \/ metric = "Memory" ->
     threshold_of (alert_request self alert_type metric value server None)
       = Some 80%Q) /\
  (metric = "disk" \/ metric = "Disk" ->
     threshold_of (alert_request self alert_type metric value server None)
       = Some 85%Q).
Proof.
  intros threshold_of. unfold alert_request. simpl.
  split; [by intros -> |]. split; [by intros -> |]. split.
  - intros Hnot. unfold thresholds.
    rewrite !lookup_insert_ne, lookup_singleton_ne; [done | ..];
      intros Heq; apply Hnot; rewrite <- Heq; set_solver.
  - split; intros [-> | ->]; reflexivity.
Qed.

End Thresholds.

Lemma request_threshold_witness :
  ("MEMORY" ∉ ["cpu"; "memory"; "disk"; "CPU"; "Memory"; "Disk"]) /\
  match alert_request (AIService_init true) "warning" "MEMORY" 85 None None with
  | AlertExplanation _ _ _ th _ _ _ => Some th
  | _ => None
  end = Some 70%Q.
Proof.
  assert (H : "MEMORY" ∉ ["cpu"; "memory"; "disk"; "CPU"; "Memory"; "Disk"]).
  { rewrite !not_elem_of_cons. repeat split; try discriminate.
    apply not_elem_of_nil. }
  split; [exact H |].
  destruct (request_threshold (AIService_init true) "warning" "MEMORY" 85
              None 0) as (_ & _ & Hdefault & _).
  exact (Hdefault H).
Defined.

(** ** Concrete runs of the further properties *)

Lemma analyze_system_state_last_ten_witness :
  10 <= length (repeat "12:00:00 | INFO | System Stable" 10) /\
  analyze_system_state (AIService_init true) timed_out (snapshot 85 50 50)
    (["old line"] ++ repeat "12:00:00 | INFO | System Stable" 10) =
  analyze_system_state (AIService_init true) timed_out (snapshot 85 50 50)
    (repeat "12:00:00 | INFO | System Stable" 10).
Proof.
  split; [simpl; lia |].
  apply analyze_system_state_last_ten. simpl. lia.
Defined.

Lemma query_logs_last_fifty_witness :
  50 <= length (repeat "12:00:00 | INFO | System Stable" 50) /\
  query_logs_natural_language (AIService_init true) timed_out "why?"
    (["old line"] ++ repeat "12:00:00 | INFO | System Stable" 50) =
  query_logs_natural_language (AIService_init true) timed_out "why?"
    (repeat "12:00:00 | INFO | System Stable" 50).
Proof.
  split; [simpl; lia |].
  apply query_logs_last_fifty. simpl. lia.
Defined.

(** Memory at 90 percent with an idle CPU: the fallback says "warning". *)
Lemma fallback_analysis_status_witness :
  client (AIService_init false) = false /\
  (10 <= 80)%Q /\ (85 < 90)%Q /\
  exists body,
    analyze_system_state (AIService_init false) timed_out (snapshot 10 90 50) []
      = Ok (JObj body) /\
    body !! "status" = Some (JStr "warning").
Proof.
  split; [reflexivity |].
  assert (H1 : (10 <= 80)%Q) by (unfold Qle; simpl; lia).
  assert (H2 : (85 < 90)%Q) by reflexivity.
  split; [exact H1 |]. split; [exact H2 |].
  destruct (fallback_analysis_status str_simple (AIService_init false)
              timed_out 10 90 50 [] 7 (or_introl eq_refl))
    as (body & Hb & Hw & _).
  exists body. split; [exact Hb |]. apply Hw. right. exact H2.
Defined.

(** Five error lines are not enough for the error insight. *)
Lemma insights_by_threshold_witness :
  length (repeat "12:00:00 | ERROR | Monitor Error: x" 5) <= 5 /\
  error_insight 5 ∉
    insights (get_system_insights (AIService_init false) "2024-01-01T12:00:00"
                (snapshot 75 85 10)
                (repeat "12:00:00 | ERROR | Monitor Error: x" 5)).
Proof.
  split; [simpl; lia |].
  destruct (insights_by_threshold (AIService_init false) "2024-01-01T12:00:00"
              75 85 10 (snapshot 75 85 10)
              (repeat "12:00:00 | ERROR | Monitor Error: x" 5))
    as (_ & _ & _ & _ & Hfew & _).
  apply Hfew. simpl. lia.
Defined.

(** An informational line changes the event log and its counter only. *)
Lemma add_log_without_enrichment_witness :
  mem "info" ["warning"; "error"; "critical"] = false /\
  ai_alerts_store
    (add_log str_simple (noon timed_out) "info" "System Stable: CPU 10%, RAM 10%"
       (Some (snapshot 10 10 10)) (app_init (Some (AIService_init true)))) = [].
Proof.
  split; [reflexivity |].
  rewrite (add_log_without_enrichment str_simple (noon timed_out) "info"
             "System Stable: CPU 10%, RAM 10%" (Some (snapshot 10 10 10))
             (app_init (Some (AIService_init true)))); [reflexivity |].
  left. reflexivity.
Defined.

Lemma gauges_follow_readings_witness :
  acquire memory_spike = Ok (snapshot 10 95 50, (10%Q, 95%Q, 50%Q)) /\
  PROM_MEM (background_monitor_tick str_simple memory_spike (app_init None)) = 95%Q.
Proof.
  split; [reflexivity |].
  destruct (gauges_follow_readings str_simple memory_spike (app_init None))
    as (Hok & _).
  destruct (Hok _ _ _ _ eq_refl) as (_ & Hmem & _). exact Hmem.
Defined.

Lemma enriched_alert_matches_history_witness :
  exists entry record self',
    last (ai_alerts_store
            (add_log_call str_simple (cpu_warning (replying (JObj odd_reply)))
               (app_init (Some (AIService_init true))))) = Some entry /\
    ai_service
      (add_log_call str_simple (cpu_warning (replying (JObj odd_reply)))
         (app_init (Some (AIService_init true)))) = Some self' /\
    last (alert_history self') = Some record /\
    ar_severity record = severity entry.
Proof.
  destruct (enriched_alert_matches_history str_simple
              (noon (replying (JObj odd_reply))) "warning" "High CPU Load: 75%"
              (Some (snapshot 75 50 50))
              (app_init (Some (AIService_init true))) (AIService_init true)
              75 odd_reply eq_refl eq_refl eq_refl eq_refl eq_refl)
    as (entry & record & self' & H1 & H2 & H3 & H4 & _).
  exists entry, record, self'. split; [exact H1 |]. split; [exact H2 |].
  split; [exact H3 | exact H4].
Defined.

(** Disk at 82 percent: a warning is logged and nothing is recommended. *)
Lemma recommendation_implies_event_witness :
  (10 <= 70)%Q /\ (10 <= 80)%Q /\ (80 < 82)%Q /\ (82 <= 85)%Q /\
  recommendations (generate_recommendations str_simple "2024-01-01T12:00:00"
                     (snapshot 10 10 82)) = [] /\
  (classify str_simple 7 10 10 82).1 <> "info".
Proof.
  assert (H : (10 <= 70)%Q /\ (10 <= 80)%Q /\ (80 < 82)%Q /\ (82 <= 85)%Q)
    by (repeat split; unfold Qle, Qlt; simpl; lia).
  destruct (recommendation_implies_event str_simple 7 "2024-01-01T12:00:00"
              10 10 82) as (_ & Hiff).
  destruct (proj2 Hiff H) as [Hr Hl].
  destruct H as (H1 & H2 & H3 & H4).
  split; [exact H1 |]. split; [exact H2 |]. split; [exact H3 |].
  split; [exact H4 |]. split; [exact Hr | exact Hl].
Defined.

Lemma alert_metric_is_head_witness :
  has_colon "High CPU Load: 75%" = true /\
  exists rest, "High CPU Load: 75%" = alert_metric "High CPU Load: 75%" +:+ ":" +:+ rest.
Proof.
  split; [reflexivity |].
  destruct (alert_metric_is_head "High CPU Load: 75%") as (_ & Hsplit & _).
  apply Hsplit. reflexivity.
Defined.

Lemma api_data_newest_witness :
  exists field,
    api_data (Ok (snapshot 10 10 10)) "2024-01-01T12:00:00"
      (add_logs str_simple [cpu_warning timed_out] (app_init None)) =
    Ok (Response 200
          (DataBody (snapshot 10 10 10)
             (last_n 20 (map log_line [cpu_warning timed_out]))
             (last_n 10 (alerts_appended str_simple [cpu_warning timed_out]
                           (app_init None)))
             field false)).
Proof.
  destruct (api_data_newest str_simple None [cpu_warning timed_out]
              (Ok (snapshot 10 10 10)) "2024-01-01T12:00:00") as (Hok & _).
  apply (Hok (snapshot 10 10 10)). reflexivity.
Defined.

Lemma ai_analyze_responses_witness :
  ai_analyze (Raise (Exn "RuntimeError" "sensor offline")) timed_out
    (app_init (Some (AIService_init true))) =
  Response 500 (ErrorBody "sensor offline").
Proof.
  destruct (ai_analyze_responses (Raise (Exn "RuntimeError" "sensor offline"))
              timed_out (app_init (Some (AIService_init true))))
    as (_ & Hfail & _).
  apply (Hfail (AIService_init true) (Exn "RuntimeError" "sensor offline"));
    reflexivity.
Defined.

(** A body that is the number 5 makes the route raise. *)
Lemma ai_query_responses_witness :
  Qeq_bool 5 0 = false /\
  exists ex,
    ai_query str_simple (JNum 5) timed_out
      (app_init (Some (AIService_init true))) = Raise ex.
Proof.
  split; [reflexivity |].
  destruct (ai_query_responses str_simple (JNum 5) timed_out
              (app_init (Some (AIService_init true))) (AIService_init true))
    as (_ & Hsvc).
  destruct (Hsvc eq_refl) as (_ & _ & _ & _ & _ & Hraise).
  apply Hraise. right. exists 5%Q. split; reflexivity.
Defined.

Lemma ai_recommendations_responses_witness :
  ai_recommendations str_simple (Ok (snapshot 75 50 50)) "2024-01-01T12:00:00"
    (app_init None) =
  Response 503 (ErrorBody "AI service unavailable").
Proof.
  destruct (ai_recommendations_responses str_simple (Ok (snapshot 75 50 50))
              "2024-01-01T12:00:00" (app_init None)) as (Hnone & _).
  apply Hnone. reflexivity.
Defined.

Lemma six_failed_ticks :
  Forall (fun t => exists ex, acquire t = Raise ex) (repeat sensor_offline 6).
Proof. simpl. repeat (constructor; [by eexists |]). constructor. Qed.

Lemma failed_ticks_reach_dashboard_witness :
  6 <= length (repeat sensor_offline 6) /\
  exists logs alerts report,
    api_data (Ok (snapshot 10 10 10)) "2024-01-01T12:00:00"
      (background_monitor str_simple (repeat sensor_offline 6)
         (app_init (Some (AIService_init false)))) =
    Ok (Response 200
          (DataBody (snapshot 10 10 10) logs alerts (InsightsOf report) true)) /\
    error_insight 6 ∈ insights report.
Proof.
  split; [simpl; lia |].
  apply (failed_ticks_reach_dashboard str_simple (AIService_init false)
           (repeat sensor_offline 6) (snapshot 10 10 10)
           "2024-01-01T12:00:00" six_failed_ticks).
  simpl. lia.
Defined.
